(** * Cash Flow Story: the ratio engine and its batch variants

    A shallow embedding of [backend/calculations.py], [backend/models.py] and
    the batch endpoint of [backend/main.py].

    - Python floats are IEEE binary64 values: Rocq's primitive [float], whose
      arithmetic is the kernel's and whose comparisons are specified by
      [FloatAxioms].
    - A Python [dict] with string keys is a [gmap string _].
    - Python exceptions are the [Raise] results of a small error monad.
    - A pandas [DataFrame] is a list of period labels and a map from column
      name to column, each column a list of floats. *)

From Stdlib Require Import ZArith Floats Uint63 String List.
From stdpp Require Import gmap strings sorting.

#[local] Set Warnings "-inexact-float".
#[local] Open Scope Z_scope.

(** ** Numbers *)

Module Num.

(** Nearest integer to [n / d] for [0 <= n], [0 < d], ties to the even
    neighbour. *)
Definition round_half_even (n d : Z) : Z :=
  let q := n / d in
  let r := n mod d in
  match 2 * r ?= d with
  | Lt => q
  | Gt => q + 1
  | Eq => if Z.even q then q else q + 1
  end.

Definition Z2float (k : Z) : float := PrimFloat.of_uint63 (Uint63.of_Z k).

(** Python's builtin [round(x, 2)] on a float: the exact binary value of
    [x] is rounded half-even to two decimals (CPython goes through the
    correctly rounded decimal conversion), and the decimal is converted
    back to the nearest double.  Below [2^53] hundredths that double is the
    correctly rounded quotient [k / 100]; above, [x] has no digit after the
    second decimal that a double could lose, and it is returned as it is.
    NaN, the infinities and the zeros round to themselves. *)
Definition py_round2 (x : float) : float :=
  match Prim2SF x with
  | S754_finite s m e =>
      if 0 <=? e then x else
      let k := round_half_even (Z.pos m * 100) (2 ^ (- e)) in
      if 2 ^ 53 <=? k then x else
      let y := (Z2float k / 100)%float in
      if s then (- y)%float else y
  | _ => x
  end.

(** C's [rint] in the default rounding mode: nearest integer, ties to
    even, the sign of the argument kept. *)
Definition rint (x : float) : float :=
  let big := 4503599627370496%float in
  if (abs x <? big)%float then
    let y := (abs x + big - big)%float in
    if (x <? 0)%float then (- y)%float
    else if (x =? 0)%float then x else y
  else x.

(** numpy's [round(2)], which pandas' [Series.round(2)] calls: scale by
    100, [rint], scale back. *)
Definition np_round2 (x : float) : float := (rint (x * 100) / 100)%float.

(** Python's [x > 0], [x < 0] and [x == 0] on floats. *)
Definition gt0 (x : float) : bool := (0 <? x)%float.
Definition lt0 (x : float) : bool := (x <? 0)%float.
Definition le0 (x : float) : bool := (x <=? 0)%float.
Definition eq0 (x : float) : bool := (x =? 0)%float.

Definition is_inf (x : float) : bool :=
  (x =? infinity)%float || (x =? neg_infinity)%float.

End Num.

(** ** Exceptions *)

Inductive exn : Type :=
| ZeroDivisionError
| KeyError (key : string)
| IndexError
| TypeError
| ValueError (msg : string)
| ValidationError
| HTTPException (status_code : Z).

Inductive result (A : Type) : Type :=
| Ok (a : A)
| Raise (e : exn).

Arguments Ok {A} a.
Arguments Raise {A} e.

#[global] Instance result_ret : MRet result := fun A a => Ok a.

#[global] Instance result_bind : MBind result := fun A B k r =>
  match r with
  | Ok a => k a
  | Raise e => Raise e
  end.

(** Python's [a / b] on floats: the only float operation of the engine that
    can raise. *)
Definition truediv (a b : float) : result float :=
  if Num.eq0 b then Raise ZeroDivisionError else Ok (a / b)%float.

(** [d.get(key, 0)] and [d[key]]. *)
Definition get (d : gmap string float) (key : string) : float :=
  default 0%float (d !! key).

Definition getitem (d : gmap string float) (key : string) : result float :=
  match d !! key with
  | Some v => Ok v
  | None => Raise (KeyError key)
  end.

(** Truth value of an [Optional[Dict]]: [None] and the empty dict are
    false. *)
Definition truthy (d : option (gmap string float)) : bool :=
  match d with
  | None => false
  | Some m => negb (bool_decide (m = ∅))
  end.

(** The entry [name] of a returned dict; nothing when the call raised. *)
Definition metric (r : result (gmap string float)) (name : string)
    : option float :=
  match r with
  | Ok a => a !! name
  | Raise _ => None
  end.

(** ** The scalar engine: [calculate_analytics] *)

Module Calc.

Import Num.
#[local] Open Scope float_scope.

(** The literal [0] of the defaults and of the failed guards is the
    integer zero; it compares equal to [0.0], and [round(0, 2)] is zero
    again.  It is identified with the float here. *)
Definition calculate_analytics
    (financial_data : gmap string float)
    (previous_period : option (gmap string float))
    : result (gmap string float) :=
  let analytics : gmap string float := ∅ in
  (* P&L items *)
  let revenue := get financial_data "revenue" in
  let cogs := get financial_data "cost_of_goods" in
  let overheads := get financial_data "overheads" in
  let depreciation := get financial_data "depreciation" in
  let interest := get financial_data "interest_paid" in
  let tax := get financial_data "tax_paid" in
  (* balance sheet, assets *)
  let cash := get financial_data "cash" in
  let receivables := get financial_data "accounts_receivable" in
  let inventory := get financial_data "inventory" in
  let fixed_assets := get financial_data "fixed_assets" in
  (* balance sheet, liabilities *)
  let current_liabilities := get financial_data "current_liabilities" in
  let noncurrent_liabilities := get financial_data "noncurrent_liabilities" in
  let payables := get financial_data "accounts_payable" in
  (* 1. revenue growth *)
  analytics ←
    (if truthy previous_period
        && gt0 (get (default ∅ previous_period) "revenue")
     then
       prev_revenue ← getitem (default ∅ previous_period) "revenue";
       q ← truediv (revenue - prev_revenue) prev_revenue;
       mret (<["revenue_growth_percent" := py_round2 (q * 100)]> analytics)
     else
       mret (<["revenue_growth_percent" := 0]> analytics));
  (* 2. gross margin *)
  let gross_margin := revenue - cogs in
  v ← (if gt0 revenue
       then q ← truediv gross_margin revenue; mret (q * 100)
       else mret 0);
  let analytics := <["gross_margin_percent" := py_round2 v]> analytics in
  (* 3. operating profit *)
  let operating_profit := gross_margin - overheads in
  v ← (if gt0 revenue
       then q ← truediv operating_profit revenue; mret (q * 100)
       else mret 0);
  let analytics := <["operating_profit_percent" := py_round2 v]> analytics in
  let ebitda := operating_profit + depreciation in
  (* 4. net profit *)
  let net_profit_before_tax := operating_profit - interest in
  let net_profit := net_profit_before_tax - tax in
  v ← (if gt0 revenue
       then q ← truediv net_profit revenue; mret (q * 100)
       else mret 0);
  let analytics := <["net_profit_percent" := py_round2 v]> analytics in
  (* 5. EBITDA *)
  v ← (if gt0 revenue
       then q ← truediv ebitda revenue; mret (q * 100)
       else mret 0);
  let analytics := <["ebitda_percent" := py_round2 v]> analytics in
  (* 6. interest coverage *)
  v ← (if gt0 interest
       then truediv operating_profit interest
       else mret 0);
  let analytics := <["interest_coverage" := py_round2 v]> analytics in
  (* 7. accounts receivable days *)
  v ← (if gt0 revenue
       then q ← truediv receivables revenue; mret (q * 365)
       else mret 0);
  let analytics := <["accounts_receivable_days" := py_round2 v]> analytics in
  (* 8. inventory days *)
  v ← (if gt0 cogs
       then q ← truediv inventory cogs; mret (q * 365)
       else mret 0);
  let analytics := <["inventory_days" := py_round2 v]> analytics in
  (* 9. accounts payable days *)
  v ← (if gt0 cogs
       then q ← truediv payables cogs; mret (q * 365)
       else mret 0);
  let analytics := <["accounts_payable_days" := py_round2 v]> analytics in
  (* 10. working capital cycle, from the three entries just stored *)
  ar_days ← getitem analytics "accounts_receivable_days";
  inv_days ← getitem analytics "inventory_days";
  ap_days ← getitem analytics "accounts_payable_days";
  let analytics :=
    <["working_capital_days" := py_round2 (ar_days + inv_days - ap_days)]>
      analytics in
  let current_assets := cash + receivables + inventory in
  let working_capital := current_assets - current_liabilities in
  (* 11. working capital per 100 of revenue *)
  v ← (if gt0 revenue
       then q ← truediv working_capital revenue; mret (q * 100)
       else mret 0);
  let analytics := <["working_capital_per_100" := py_round2 v]> analytics in
  (* 12. current ratio *)
  v ← (if gt0 current_liabilities
       then truediv current_assets current_liabilities
       else mret 0);
  let analytics := <["current_ratio" := py_round2 v]> analytics in
  let total_assets := current_assets + fixed_assets in
  let total_liabilities := current_liabilities + noncurrent_liabilities in
  let equity := total_assets - total_liabilities in
  (* 13. return on capital *)
  let total_capital := working_capital + fixed_assets in
  v ← (if gt0 total_capital
       then q ← truediv operating_profit total_capital; mret (q * 100)
       else mret 0);
  let analytics := <["return_on_capital" := py_round2 v]> analytics in
  (* 14. asset turnover *)
  v ← (if gt0 total_assets
       then truediv revenue total_assets
       else mret 0);
  let analytics := <["asset_turnover" := py_round2 v]> analytics in
  (* 15. return on equity *)
  v ← (if gt0 equity
       then q ← truediv net_profit equity; mret (q * 100)
       else mret 0);
  let analytics := <["return_on_equity" := py_round2 v]> analytics in
  (* 16. return on assets *)
  v ← (if gt0 total_assets
       then q ← truediv net_profit total_assets; mret (q * 100)
       else mret 0);
  let analytics := <["return_on_assets" := py_round2 v]> analytics in
  (* 17. fixed assets turnover *)
  v ← (if gt0 fixed_assets
       then truediv revenue fixed_assets
       else mret 0);
  let analytics := <["fixed_assets_turnover" := py_round2 v]> analytics in
  (* 18. debt to equity *)
  v ← (if gt0 equity
       then truediv total_liabilities equity
       else mret 0);
  let analytics := <["debt_to_equity" := py_round2 v]> analytics in
  (* 19. debt to capital *)
  let total_capital_debt := equity + total_liabilities in
  v ← (if gt0 total_capital_debt
       then truediv total_liabilities total_capital_debt
       else mret 0);
  let analytics := <["debt_to_capital" := py_round2 v]> analytics in
  (* 20. equity ratio *)
  v ← (if gt0 total_assets
       then q ← truediv equity total_assets; mret (q * 100)
       else mret 0);
  let analytics := <["equity_ratio" := py_round2 v]> analytics in
  (* 21. operating cash flow *)
  let analytics :=
    <["operating_cash_flow" := py_round2 (net_profit + depreciation)]>
      analytics in
  mret analytics.

End Calc.

(** ** What the engine computes, entry by entry *)

Module Derived.

Import Num.
#[local] Open Scope float_scope.

(** [v if d > 0 else 0]. *)
Definition guarded (d v : float) : float := if gt0 d then v else 0.

(** The test of the growth entry: the previous period counts only when it
    is a non-empty dict whose revenue is positive. *)
Definition has_base (previous_period : option (gmap string float)) : bool :=
  truthy previous_period && gt0 (get (default ∅ previous_period) "revenue").

Section Quantities.

Variable financial_data : gmap string float.

Definition revenue := get financial_data "revenue".
Definition cogs := get financial_data "cost_of_goods".
Definition overheads := get financial_data "overheads".
Definition depreciation := get financial_data "depreciation".
Definition interest := get financial_data "interest_paid".
Definition tax := get financial_data "tax_paid".
Definition cash := get financial_data "cash".
Definition receivables := get financial_data "accounts_receivable".
Definition inventory := get financial_data "inventory".
Definition fixed_assets := get financial_data "fixed_assets".
Definition current_liabilities := get financial_data "current_liabilities".
Definition noncurrent_liabilities :=
  get financial_data "noncurrent_liabilities".
Definition payables := get financial_data "accounts_payable".

Definition gross_margin := revenue - cogs.
Definition operating_profit := gross_margin - overheads.
Definition ebitda := operating_profit + depreciation.
Definition net_profit := operating_profit - interest - tax.
Definition current_assets := cash + receivables + inventory.
Definition working_capital := current_assets - current_liabilities.
Definition total_assets := current_assets + fixed_assets.
Definition total_liabilities := current_liabilities + noncurrent_liabilities.
Definition equity := total_assets - total_liabilities.
Definition total_capital := working_capital + fixed_assets.
Definition total_capital_debt := equity + total_liabilities.

Definition accounts_receivable_days :=
  py_round2 (guarded revenue (receivables / revenue * 365)).
Definition inventory_days :=
  py_round2 (guarded cogs (inventory / cogs * 365)).
Definition accounts_payable_days :=
  py_round2 (guarded cogs (payables / cogs * 365)).

Definition revenue_growth_percent
    (previous_period : option (gmap string float)) : float :=
  if has_base previous_period then
    let prev_revenue := get (default ∅ previous_period) "revenue" in
    py_round2 ((revenue - prev_revenue) / prev_revenue * 100)
  else 0.

(** The dict the engine builds, store by store, with every division taken
    as the total IEEE one.  [calculate_analytics_eq] below proves that the
    engine returns exactly this dict. *)
Definition analytics_of
    (previous_period : option (gmap string float)) : gmap string float :=
  <["operating_cash_flow" := py_round2 (net_profit + depreciation)]> (
  <["equity_ratio" :=
      py_round2 (guarded total_assets (equity / total_assets * 100))]> (
  <["debt_to_capital" :=
      py_round2 (guarded total_capital_debt
                   (total_liabilities / total_capital_debt))]> (
  <["debt_to_equity" :=
      py_round2 (guarded equity (total_liabilities / equity))]> (
  <["fixed_assets_turnover" :=
      py_round2 (guarded fixed_assets (revenue / fixed_assets))]> (
  <["return_on_assets" :=
      py_round2 (guarded total_assets (net_profit / total_assets * 100))]> (
  <["return_on_equity" :=
      py_round2 (guarded equity (net_profit / equity * 100))]> (
  <["asset_turnover" :=
      py_round2 (guarded total_assets (revenue / total_assets))]> (
  <["return_on_capital" :=
      py_round2 (guarded total_capital
                   (operating_profit / total_capital * 100))]> (
  <["current_ratio" :=
      py_round2 (guarded current_liabilities
                   (current_assets / current_liabilities))]> (
  <["working_capital_per_100" :=
      py_round2 (guarded revenue (working_capital / revenue * 100))]> (
  <["working_capital_days" :=
      py_round2 (accounts_receivable_days + inventory_days
                 - accounts_payable_days)]> (
  <["accounts_payable_days" := accounts_payable_days]> (
  <["inventory_days" := inventory_days]> (
  <["accounts_receivable_days" := accounts_receivable_days]> (
  <["interest_coverage" :=
      py_round2 (guarded interest (operating_profit / interest))]> (
  <["ebitda_percent" :=
      py_round2 (guarded revenue (ebitda / revenue * 100))]> (
  <["net_profit_percent" :=
      py_round2 (guarded revenue (net_profit / revenue * 100))]> (
  <["operating_profit_percent" :=
      py_round2 (guarded revenue (operating_profit / revenue * 100))]> (
  <["gross_margin_percent" :=
      py_round2 (guarded revenue (gross_margin / revenue * 100))]> (
  <["revenue_growth_percent" := revenue_growth_percent previous_period]>
    ∅)))))))))))))))))))).

(** The ratio metrics: name, the denominator its condition tests, and the
    value stored (before rounding) when the test succeeds. *)
Definition ratios : list (string * float * float) :=
  [("gross_margin_percent", revenue, gross_margin / revenue * 100);
   ("operating_profit_percent", revenue, operating_profit / revenue * 100);
   ("net_profit_percent", revenue, net_profit / revenue * 100);
   ("ebitda_percent", revenue, ebitda / revenue * 100);
   ("interest_coverage", interest, operating_profit / interest);
   ("accounts_receivable_days", revenue, receivables / revenue * 365);
   ("inventory_days", cogs, inventory / cogs * 365);
   ("accounts_payable_days", cogs, payables / cogs * 365);
   ("working_capital_per_100", revenue, working_capital / revenue * 100);
   ("current_ratio", current_liabilities,
    current_assets / current_liabilities);
   ("return_on_capital", total_capital,
    operating_profit / total_capital * 100);
   ("asset_turnover", total_assets, revenue / total_assets);
   ("return_on_equity", equity, net_profit / equity * 100);
   ("return_on_assets", total_assets, net_profit / total_assets * 100);
   ("fixed_assets_turnover", fixed_assets, revenue / fixed_assets);
   ("debt_to_equity", equity, total_liabilities / equity);
   ("debt_to_capital", total_capital_debt,
    total_liabilities / total_capital_debt);
   ("equity_ratio", total_assets, equity / total_assets * 100)].

End Quantities.

(** The keys [calculate_analytics] reads from [financial_data]. *)
Definition input_fields : list string :=
  ["revenue"; "cost_of_goods"; "overheads"; "depreciation";
   "interest_paid"; "tax_paid"; "cash"; "accounts_receivable";
   "inventory"; "fixed_assets"; "current_liabilities";
   "noncurrent_liabilities"; "accounts_payable"].

End Derived.

(** ** [validate_financial_data] *)

Module Validate.

Import Num.

(** The dict as the validator sees it: a value may be [None]. *)
Definition raw_dict := gmap string (option float).

Definition required_fields : list string := ["revenue"].

Definition non_negative_fields : list string :=
  ["revenue"; "cash"; "accounts_receivable"; "inventory"; "fixed_assets"].

(** The first loop: [Some msg] is the early return [(False, msg)]. *)
Fixpoint check_required (data : raw_dict) (fields : list string)
    : option string :=
  match fields with
  | [] => None
  | field :: rest =>
      match data !! field with
      | None | Some None => Some ("Missing required field: " +:+ field)
      | Some (Some _) => check_required data rest
      end
  end.

(** The second loop; [None < 0] is a [TypeError] in Python 3. *)
Fixpoint check_non_negative (data : raw_dict) (fields : list string)
    : result (option string) :=
  match fields with
  | [] => Ok None
  | field :: rest =>
      match data !! field with
      | None => check_non_negative data rest
      | Some None => Raise TypeError
      | Some (Some v) =>
          if lt0 v then Ok (Some (field +:+ " cannot be negative"))
          else check_non_negative data rest
      end
  end.

Definition validate_financial_data (data : raw_dict)
    : result (bool * string) :=
  match check_required data required_fields with
  | Some msg => Ok (false, msg)
  | None =>
      r ← check_non_negative data non_negative_fields;
      match r with
      | Some msg => Ok (false, msg)
      | None => Ok (true, "")
      end
  end.

(** The two readings of the validation rule, as decidable predicates. *)

(** [data[field] < 0] for a field that is present and a number. *)
Definition negative_at (data : raw_dict) (field : string) : bool :=
  match data !! field with
  | Some (Some v) => lt0 v
  | _ => false
  end.

(** The rule as the specification words it: reject when [revenue] is
    missing or [<= 0], or when one of the five listed fields is negative. *)
Definition spec_rejects (data : raw_dict) : bool :=
  match data !! "revenue" with
  | Some (Some r) => le0 r
  | _ => true
  end
  || existsb (negative_at data) non_negative_fields.

(** The rule without the [revenue <= 0] clause. *)
Definition rejects (data : raw_dict) : bool :=
  match data !! "revenue" with
  | Some (Some _) => false
  | _ => true
  end
  || existsb (negative_at data) non_negative_fields.

(** Every listed field other than [revenue] holds a number when it is
    present (a [None] there makes the comparison raise). *)
Definition numeric (data : raw_dict) : Prop :=
  Forall (fun field => data !! field ≠ Some None)
         ["cash"; "accounts_receivable"; "inventory"; "fixed_assets"].

End Validate.

(** ** The pydantic models of [models.py] *)

Module Models.

Import Num.

Record FinancialData : Type := {
  company_name : string;
  period : string;
  revenue : float;
  cost_of_goods : float;
  overheads : float;
  depreciation : float;
  interest_paid : float;
  tax_paid : float;
  cash : float;
  accounts_receivable : float;
  inventory : float;
  fixed_assets : float;
  current_liabilities : float;
  noncurrent_liabilities : float;
  accounts_payable : float
}.

(** The [@validator('revenue')] of [FinancialData]. *)
Definition revenue_must_be_positive (v : float) : result float :=
  if le0 v then Raise (ValueError "Revenue must be greater than 0") else Ok v.

(** [Field(..., ge=0)]. *)
Definition ge0 (v : float) : bool := (0 <=? v)%float.

(** What constructing a [FinancialData] checks: [min_length=1] on the name,
    [ge=0] on every amount, and the revenue validator. *)
Definition field_constraints (d : FinancialData) : bool :=
  negb (String.eqb (company_name d) "")
  && forallb ge0
       [revenue d; cost_of_goods d; overheads d; depreciation d;
        interest_paid d; tax_paid d; cash d; accounts_receivable d;
        inventory d; fixed_assets d; current_liabilities d;
        noncurrent_liabilities d; accounts_payable d].

Definition validate (d : FinancialData) : result FinancialData :=
  if field_constraints d then
    match revenue_must_be_positive (revenue d) with
    | Ok _ => Ok d
    | Raise _ => Raise ValidationError
    end
  else Raise ValidationError.

(** [model_dump()], restricted to the numeric entries: the two string
    entries, [company_name] and [period], are never read by the engine. *)
Definition model_dump (d : FinancialData) : gmap string float :=
  list_to_map
    [("revenue", revenue d); ("cost_of_goods", cost_of_goods d);
     ("overheads", overheads d); ("depreciation", depreciation d);
     ("interest_paid", interest_paid d); ("tax_paid", tax_paid d);
     ("cash", cash d); ("accounts_receivable", accounts_receivable d);
     ("inventory", inventory d); ("fixed_assets", fixed_assets d);
     ("current_liabilities", current_liabilities d);
     ("noncurrent_liabilities", noncurrent_liabilities d);
     ("accounts_payable", accounts_payable d)].

(** [AnalyticsResponse], without its [calculated_at] time stamp. *)
Record AnalyticsResponse : Type := {
  input_data : FinancialData;
  analytics : gmap string float;
  previous_period : option FinancialData
}.

Record BatchCalculationRequest : Type := {
  request_company_name : string;
  request_periods : list FinancialData
}.

Record BatchAnalyticsResponse : Type := {
  response_company_name : string;
  periods : list AnalyticsResponse;
  total_periods : Z
}.

(** The keyword arguments [**data] of [BatchAnalyticsResponse.__init__]. *)
Record kwargs : Type := {
  kw_company_name : option string;
  kw_periods : option (list AnalyticsResponse);
  kw_total_periods : option Z
}.

(** [BaseModel.__init__]: the two required fields must be there,
    [total_periods] defaults to 0. *)
Definition BaseModel_init (data : kwargs) : result BatchAnalyticsResponse :=
  match kw_company_name data, kw_periods data with
  | Some name, Some ps =>
      Ok {| response_company_name := name;
            periods := ps;
            total_periods := default 0 (kw_total_periods data) |}
  | _, _ => Raise ValidationError
  end.

(** [BatchAnalyticsResponse.__init__].  The update of the local [data] is
    kept, although nothing reads it afterwards. *)
Definition BatchAnalyticsResponse_init (data : kwargs)
    : result BatchAnalyticsResponse :=
  self ← BaseModel_init data;
  let data :=
    if bool_decide (kw_total_periods data = None
                    ∨ kw_total_periods data = Some 0)
    then {| kw_company_name := kw_company_name data;
            kw_periods := kw_periods data;
            kw_total_periods :=
              Some (Z.of_nat (length (default [] (kw_periods data)))) |}
    else data in
  mret {| response_company_name := response_company_name self;
          periods := periods self;
          total_periods := Z.of_nat (length (periods self)) |}.

(** The dict a record is dumped to, as [validate_financial_data] takes
    it. *)
Definition raw_dump (d : FinancialData) : Validate.raw_dict :=
  Some <$> model_dump d.

End Models.

(** ** The batch endpoint of [main.py] *)

Module Api.

Import Models.

(** One turn of the loop of [calculate_batch]. *)
Definition batch_step (all : list FinancialData)
    (i : nat) (period_data : FinancialData) : result AnalyticsResponse :=
  previous ←
    (if (0 <? i)%nat then
       match all !! (i - 1)%nat with
       | Some p => Ok (Some p)
       | None => Raise IndexError
       end
     else Ok None);
  let financial_dict := model_dump period_data in
  let previous_dict := model_dump <$> previous in
  analytics ← Calc.calculate_analytics financial_dict previous_dict;
  mret {| input_data := period_data;
          analytics := analytics;
          previous_period := previous |}.

(** [for i, x in enumerate(l): results.append(f(i, x))], from index [i]. *)
Fixpoint for_enumerate {A B : Type} (f : nat → A → result B)
    (i : nat) (l : list A) (results : list B) : result (list B) :=
  match l with
  | [] => Ok results
  | x :: rest =>
      r ← f i x;
      for_enumerate f (S i) rest (results ++ [r])
  end.

(** [try: ... except Exception as e: raise HTTPException(500, ...)]. *)
Definition try_500 {A : Type} (r : result A) : result A :=
  match r with
  | Ok a => Ok a
  | Raise _ => Raise (HTTPException 500)
  end.

Definition calculate_batch (request : BatchCalculationRequest)
    : result BatchAnalyticsResponse :=
  try_500 (
    results ←
      for_enumerate (batch_step (request_periods request)) 0
        (request_periods request) [];
    BatchAnalyticsResponse_init
      {| kw_company_name := Some (request_company_name request);
         kw_periods := Some results;
         kw_total_periods := None |}).


(** The results the loop of [calculate_batch] appends for the periods [l]
    that follow the period [previous], with the dict the engine is proved
    to return. *)
Fixpoint batch_results (previous : option FinancialData)
    (l : list FinancialData) : list AnalyticsResponse :=
  match l with
  | [] => []
  | period_data :: rest =>
      {| input_data := period_data;
         analytics :=
           Derived.analytics_of (model_dump period_data)
             (model_dump <$> previous);
         previous_period := previous |}
      :: batch_results (Some period_data) rest
  end.

End Api.

(** ** The vectorized variant: [calculate_analytics_df] *)

Module Pandas.

Import Num.
#[local] Open Scope float_scope.

Abbreviation Series := (list float).

(** A frame: the [period] column, and the float columns by name.  The
    [company_name] column is carried by no operation and is left out. *)
Record DataFrame : Type := {
  period_col : list string;
  columns : gmap string Series
}.

(** [df[name]]: a missing column is a [KeyError]. *)
Definition col (name : string) (df : DataFrame) : result Series :=
  match columns df !! name with
  | Some s => Ok s
  | None => Raise (KeyError name)
  end.

Definition set_col (name : string) (s : Series) (df : DataFrame) : DataFrame :=
  {| period_col := period_col df; columns := <[name := s]> (columns df) |}.

(** Series expressions over a frame. *)
Abbreviation sexpr := (DataFrame → result Series).

Definition lift2 (op : float → float → float) (a b : sexpr) : sexpr :=
  fun df => x ← a df; y ← b df; mret (zip_with op x y).

Definition s_add := lift2 PrimFloat.add.
Definition s_sub := lift2 PrimFloat.sub.
(** numpy's division does not raise: [x / 0] is an infinity, [0 / 0] NaN. *)
Definition s_div := lift2 PrimFloat.div.
Definition s_times (a : sexpr) (k : float) : sexpr :=
  fun df => x ← a df; mret (fmap (M := list) (fun v => v * k) x).

(** [Series.pct_change()]: each entry over its predecessor, minus one; the
    predecessor of the first entry is NaN.  (Older pandas first pads NaN
    entries of the series forward, which changes nothing for a series
    without NaN.) *)
Definition pct_change (a : sexpr) : sexpr :=
  fun df => x ← a df; mret (zip_with (fun v p => v / p - 1) x (nan :: x)).

(** [replace([inf, -inf], 0)] on a series. *)
Definition replace_inf (s : Series) : Series :=
  (fun v => if is_inf v then 0 else v) <$> s.

Definition s_replace_inf (a : sexpr) : sexpr :=
  fun df => x ← a df; mret (replace_inf x).

(** [df[name] = e]. *)
Definition assign (name : string) (e : sexpr) (df : DataFrame)
    : result DataFrame :=
  s ← e df; mret (set_col name s df).

(** Stable insertion of a labelled row number into a list sorted by
    label. *)
Fixpoint insert_label (x : string * nat) (l : list (string * nat))
    : list (string * nat) :=
  match l with
  | [] => [x]
  | y :: rest =>
      if String.leb (fst x) (fst y) then x :: l
      else y :: insert_label x rest
  end.

(** The row order [sort_values('period')] produces: labels compared as
    strings.  (pandas' default sort does not promise to keep rows with
    equal labels in order; this one does.) *)
Definition argsort (labels : list string) : list nat :=
  snd <$> foldr insert_label [] (zip labels (seq 0 (length labels))).

Definition take_rows {A : Type} (order : list nat) (s : list A) : list A :=
  omap (fun i => s !! i) order.

Definition sort_values (df : DataFrame) : DataFrame :=
  let order := argsort (period_col df) in
  {| period_col := take_rows order (period_col df);
     columns := take_rows order <$> columns df |}.

Definition calculated_columns : list string :=
  ["revenue_growth_percent"; "gross_margin_percent";
   "operating_profit_percent"; "net_profit_percent"; "ebitda_percent";
   "interest_coverage"; "accounts_receivable_days"; "inventory_days";
   "accounts_payable_days"; "working_capital_days";
   "working_capital_per_100"; "current_ratio"; "return_on_capital";
   "asset_turnover"; "return_on_equity"; "return_on_assets";
   "fixed_assets_turnover"; "debt_to_equity"; "debt_to_capital";
   "equity_ratio"; "operating_cash_flow"].

(** [if col in df.columns: df[col] = df[col].round(2)]. *)
Definition round_column (df : DataFrame) (name : string) : DataFrame :=
  match columns df !! name with
  | Some s => set_col name (np_round2 <$> s) df
  | None => df
  end.

Declare Scope series_scope.
Notation "a - b" := (s_sub a b) : series_scope.
Notation "a + b" := (s_add a b) : series_scope.
Notation "a / b" := (s_div a b) : series_scope.
Notation "a * k" := (s_times a k) : series_scope.
Delimit Scope series_scope with S.

Definition calculate_analytics_df (df : DataFrame) : result DataFrame :=
  let df := sort_values df in
  (* group 1: profitability *)
  df ← assign "revenue_growth_percent"
         (pct_change (col "revenue") * 100)%S df;
  df ← assign "gross_margin" (col "revenue" - col "cost_of_goods")%S df;
  df ← assign "gross_margin_percent"
         ((col "gross_margin" / col "revenue") * 100)%S df;
  df ← assign "operating_profit"
         (col "gross_margin" - col "overheads")%S df;
  df ← assign "operating_profit_percent"
         ((col "operating_profit" / col "revenue") * 100)%S df;
  df ← assign "ebitda" (col "operating_profit" + col "depreciation")%S df;
  df ← assign "ebitda_percent" ((col "ebitda" / col "revenue") * 100)%S df;
  df ← assign "net_profit"
         (col "operating_profit" - col "interest_paid" - col "tax_paid")%S df;
  df ← assign "net_profit_percent"
         ((col "net_profit" / col "revenue") * 100)%S df;
  df ← assign "interest_coverage"
         (col "operating_profit" / col "interest_paid")%S df;
  df ← assign "interest_coverage"
         (s_replace_inf (col "interest_coverage")) df;
  (* group 2: working capital *)
  df ← assign "accounts_receivable_days"
         ((col "accounts_receivable" / col "revenue") * 365)%S df;
  df ← assign "inventory_days"
         ((col "inventory" / col "cost_of_goods") * 365)%S df;
  df ← assign "accounts_payable_days"
         ((col "accounts_payable" / col "cost_of_goods") * 365)%S df;
  df ← assign "working_capital_days"
         (col "accounts_receivable_days" + col "inventory_days"
          - col "accounts_payable_days")%S df;
  df ← assign "current_assets"
         (col "cash" + col "accounts_receivable" + col "inventory")%S df;
  df ← assign "working_capital"
         (col "current_assets" - col "current_liabilities")%S df;
  df ← assign "working_capital_per_100"
         ((col "working_capital" / col "revenue") * 100)%S df;
  df ← assign "current_ratio"
         (col "current_assets" / col "current_liabilities")%S df;
  (* group 3: capital efficiency *)
  df ← assign "total_assets"
         (col "current_assets" + col "fixed_assets")%S df;
  df ← assign "total_liabilities"
         (col "current_liabilities" + col "noncurrent_liabilities")%S df;
  df ← assign "equity" (col "total_assets" - col "total_liabilities")%S df;
  df ← assign "total_capital"
         (col "working_capital" + col "fixed_assets")%S df;
  df ← assign "return_on_capital"
         ((col "operating_profit" / col "total_capital") * 100)%S df;
  df ← assign "asset_turnover" (col "revenue" / col "total_assets")%S df;
  df ← assign "return_on_equity"
         ((col "net_profit" / col "equity") * 100)%S df;
  df ← assign "return_on_assets"
         ((col "net_profit" / col "total_assets") * 100)%S df;
  df ← assign "fixed_assets_turnover"
         (col "revenue" / col "fixed_assets")%S df;
  df ← assign "debt_to_equity" (col "total_liabilities" / col "equity")%S df;
  df ← assign "total_capital_debt"
         (col "equity" + col "total_liabilities")%S df;
  df ← assign "debt_to_capital"
         (col "total_liabilities" / col "total_capital_debt")%S df;
  df ← assign "equity_ratio"
         ((col "equity" / col "total_assets") * 100)%S df;
  df ← assign "operating_cash_flow"
         (col "net_profit" + col "depreciation")%S df;
  (* inf and -inf become 0, in every column *)
  let df := {| period_col := period_col df;
               columns := replace_inf <$> columns df |} in
  (* round the calculated columns *)
  mret (foldl round_column df calculated_columns).

(** The frame of a list of records, one row each, as
    [pd.DataFrame([p.model_dump() for p in records])] builds it. *)
Definition from_records (records : list Models.FinancialData) : DataFrame :=
  {| period_col := Models.period <$> records;
     columns :=
       list_to_map
         [("revenue", Models.revenue <$> records);
          ("cost_of_goods", Models.cost_of_goods <$> records);
          ("overheads", Models.overheads <$> records);
          ("depreciation", Models.depreciation <$> records);
          ("interest_paid", Models.interest_paid <$> records);
          ("tax_paid", Models.tax_paid <$> records);
          ("cash", Models.cash <$> records);
          ("accounts_receivable", Models.accounts_receivable <$> records);
          ("inventory", Models.inventory <$> records);
          ("fixed_assets", Models.fixed_assets <$> records);
          ("current_liabilities", Models.current_liabilities <$> records);
          ("noncurrent_liabilities",
           Models.noncurrent_liabilities <$> records);
          ("accounts_payable", Models.accounts_payable <$> records)] |}.

(** The entry of column [name] in row [i] of a computed frame. *)
Definition cell (r : result DataFrame) (name : string) (i : nat)
    : option float :=
  match r with
  | Ok df => columns df !! name ≫= (fun s => s !! i)
  | Raise _ => None
  end.

End Pandas.

(** ** The demo data of [demo_data.py] *)

Module Demo.

Import Models.
#[local] Open Scope float_scope.

Definition rebeccas (period : string)
    (revenue cost_of_goods overheads depreciation interest_paid tax_paid
     cash accounts_receivable inventory fixed_assets
     current_liabilities noncurrent_liabilities accounts_payable : float)
    : FinancialData :=
  {| company_name := "Rebeccas Coffee"; period := period;
     revenue := revenue; cost_of_goods := cost_of_goods;
     overheads := overheads; depreciation := depreciation;
     interest_paid := interest_paid; tax_paid := tax_paid;
     cash := cash; accounts_receivable := accounts_receivable;
     inventory := inventory; fixed_assets := fixed_assets;
     current_liabilities := current_liabilities;
     noncurrent_liabilities := noncurrent_liabilities;
     accounts_payable := accounts_payable |}.

Definition y2015 : FinancialData :=
  rebeccas "2015" 3400000 2400000 600000 100000 60000 60000
    150000 800000 900000 1500000 700000 1500000 400000.

Definition y2016 : FinancialData :=
  rebeccas "2016" 4200000 2900000 750000 120000 75000 85000
    180000 1100000 1200000 1800000 850000 1700000 550000.

Definition y2017 : FinancialData :=
  rebeccas "2017" 5800000 4100000 950000 150000 95000 120000
    190000 1400000 1600000 2200000 1000000 1900000 650000.

Definition y2018 : FinancialData :=
  rebeccas "2018" 6600000 4700000 1100000 180000 110000 140000
    200000 1500000 1800000 2500000 1200000 2100000 750000.

Definition get_rebeccas_data : list FinancialData :=
  [y2015; y2016; y2017; y2018].

End Demo.

(** ** Inputs of [tests/test_calculations.py] and further sample periods *)

Module Samples.

Import Models.
#[local] Open Scope float_scope.

(** The dict of [test_gross_margin_percent]. *)
Definition gross_margin_data : gmap string float :=
  list_to_map [("revenue", 1000000); ("cost_of_goods", 600000)].

(** The dicts of [test_net_profit_percent],
    [test_accounts_receivable_days] and [test_return_on_equity]. *)
Definition net_profit_data : gmap string float :=
  list_to_map
    [("revenue", 1000000); ("cost_of_goods", 600000);
     ("overheads", 200000); ("interest_paid", 10000); ("tax_paid", 30000)].

Definition receivable_days_data : gmap string float :=
  list_to_map [("revenue", 3650000); ("accounts_receivable", 1000000)].

Definition return_on_equity_data : gmap string float :=
  list_to_map
    [("revenue", 1000000); ("cost_of_goods", 600000);
     ("overheads", 200000); ("interest_paid", 10000); ("tax_paid", 30000);
     ("cash", 100000); ("accounts_receivable", 200000);
     ("inventory", 200000); ("fixed_assets", 500000);
     ("current_liabilities", 200000); ("noncurrent_liabilities", 300000)].

(** A period that passes validation and whose equity and current
    liabilities are not positive: long-term debt exceeds the assets, and
    there is no short-term debt. *)
Definition indebted : FinancialData :=
  {| company_name := "Test Company"; period := "2024";
     revenue := 1000000; cost_of_goods := 600000; overheads := 200000;
     depreciation := 0; interest_paid := 0; tax_paid := 0;
     cash := 0; accounts_receivable := 0; inventory := 0;
     fixed_assets := 100000;
     current_liabilities := 0; noncurrent_liabilities := 500000;
     accounts_payable := 0 |}.

(** The first three years of the demo data: a chronological sequence. *)
Definition first_three : list FinancialData := take 3 Demo.get_rebeccas_data.

(** Two demo years followed by the indebted period: chronological as
    well. *)
Definition then_indebted : list FinancialData :=
  [Demo.y2015; Demo.y2016; indebted].

(** A dict with a zero revenue and nothing else. *)
Definition zero_revenue : Validate.raw_dict := {[ "revenue" := Some 0 ]}.

(** A dict the validator accepts, and one it rejects. *)
Definition sound_books : Validate.raw_dict :=
  list_to_map [("revenue", Some 1000000); ("cash", Some 100000)].

Definition negative_cash : Validate.raw_dict :=
  list_to_map [("revenue", Some 1000000); ("cash", Some (-5))].

(** Keyword arguments that announce 7 periods and carry one, and the
    response built from them. *)
Definition one_result : AnalyticsResponse :=
  {| input_data := Demo.y2015; analytics := ∅; previous_period := None |}.

Definition miscounted : kwargs :=
  {| kw_company_name := Some "Rebeccas Coffee";
     kw_periods := Some [one_result];
     kw_total_periods := Some 7%Z |}.

Definition counted : BatchAnalyticsResponse :=
  {| response_company_name := "Rebeccas Coffee";
     periods := [one_result];
     total_periods := 1%Z |}.

End Samples.

(** ** [get_metric_explanation] *)

Module Explain.

Definition explanations : gmap string string :=
  list_to_map
    [("revenue_growth_percent", "Year-over-year revenue growth rate");
     ("gross_margin_percent", "Profit after direct costs (COGS)");
     ("operating_profit_percent", "Profit after all operating expenses");
     ("net_profit_percent", "Bottom line profit after all expenses");
     ("ebitda_percent",
      "Earnings before interest, tax, depreciation, amortization");
     ("interest_coverage", "Ability to pay interest from operating profit");
     ("accounts_receivable_days",
      "Average days to collect payment from customers");
     ("inventory_days", "Average days inventory sits before being sold");
     ("accounts_payable_days", "Average days before paying suppliers");
     ("working_capital_days", "Cash conversion cycle length");
     ("working_capital_per_100", "Working capital as percentage of revenue");
     ("current_ratio", "Ability to pay short-term debts");
     ("return_on_capital",
      "Profit generated from working capital + fixed assets");
     ("asset_turnover", "Revenue efficiency per dollar of assets");
     ("return_on_equity", "Profit generated for shareholders");
     ("return_on_assets", "Profit efficiency per dollar of assets");
     ("fixed_assets_turnover", "Revenue per dollar of fixed assets");
     ("debt_to_equity", "Financial leverage ratio");
     ("debt_to_capital", "Proportion of debt in capital structure");
     ("equity_ratio", "Proportion of assets financed by equity");
     ("operating_cash_flow", "Approximated cash from operations")].

Definition no_explanation : string := "No explanation available".

Definition get_metric_explanation (metric_name : string) : string :=
  default no_explanation (explanations !! metric_name).

End Explain.

(** ** The vectorized variant, row by row *)

Module Rowwise.

Import Num Models Pandas.
#[local] Open Scope float_scope.

(** The columns [calculate_analytics_df] reads from its argument, in the
    order in which it first reads them. *)
Definition input_columns : list string :=
  ["revenue"; "cost_of_goods"; "overheads"; "depreciation";
   "interest_paid"; "tax_paid"; "accounts_receivable"; "inventory";
   "accounts_payable"; "cash"; "current_liabilities"; "fixed_assets";
   "noncurrent_liabilities"].

(** The records in the row order of [sort_values]. *)
Definition sort_records (records : list FinancialData) : list FinancialData :=
  take_rows (argsort (period <$> records)) records.

(** Labels in the order [sort_values] puts them, and the same on the
    labelled row numbers it sorts. *)
Definition label_le (a b : string) : Prop := String.leb a b = true.

Definition pair_le (x y : string * nat) : Prop := label_le x.1 y.1.

(** A row of the sorted frame: the record, and the revenue of the row
    before it, NaN for the first row. *)
Definition row : Type := FinancialData * float.

Definition rows_of (sorted : list FinancialData) : list row :=
  zip sorted (nan :: (revenue <$> sorted)).

(** [replace([inf, -inf], 0)] on one value. *)
Definition no_inf (v : float) : float := if is_inf v then 0 else v.

Section Row.

Variable r : row.

Definition growth := (revenue r.1 / r.2 - 1) * 100.
Definition gross_margin := revenue r.1 - cost_of_goods r.1.
Definition operating_profit := gross_margin - overheads r.1.
Definition ebitda := operating_profit + depreciation r.1.
Definition net_profit := operating_profit - interest_paid r.1 - tax_paid r.1.
Definition receivable_days := accounts_receivable r.1 / revenue r.1 * 365.
Definition inventory_days := inventory r.1 / cost_of_goods r.1 * 365.
Definition payable_days := accounts_payable r.1 / cost_of_goods r.1 * 365.
Definition current_assets := cash r.1 + accounts_receivable r.1 + inventory r.1.
Definition working_capital := current_assets - current_liabilities r.1.
Definition total_assets := current_assets + fixed_assets r.1.
Definition total_liabilities :=
  current_liabilities r.1 + noncurrent_liabilities r.1.
Definition equity := total_assets - total_liabilities.
Definition total_capital := working_capital + fixed_assets r.1.
Definition total_capital_debt := equity + total_liabilities.

(** The 21 calculated columns in one row, before the replacement of the
    infinities and the rounding: no guard, and the working capital days
    from the unrounded day counts. *)
Definition raw_metrics : list (string * float) :=
  [("revenue_growth_percent", growth);
   ("gross_margin_percent", gross_margin / revenue r.1 * 100);
   ("operating_profit_percent", operating_profit / revenue r.1 * 100);
   ("net_profit_percent", net_profit / revenue r.1 * 100);
   ("ebitda_percent", ebitda / revenue r.1 * 100);
   ("interest_coverage", operating_profit / interest_paid r.1);
   ("accounts_receivable_days", receivable_days);
   ("inventory_days", inventory_days);
   ("accounts_payable_days", payable_days);
   ("working_capital_days", receivable_days + inventory_days - payable_days);
   ("working_capital_per_100", working_capital / revenue r.1 * 100);
   ("current_ratio", current_assets / current_liabilities r.1);
   ("return_on_capital", operating_profit / total_capital * 100);
   ("asset_turnover", revenue r.1 / total_assets);
   ("return_on_equity", net_profit / equity * 100);
   ("return_on_assets", net_profit / total_assets * 100);
   ("fixed_assets_turnover", revenue r.1 / fixed_assets r.1);
   ("debt_to_equity", total_liabilities / equity);
   ("debt_to_capital", total_liabilities / total_capital_debt);
   ("equity_ratio", equity / total_assets * 100);
   ("operating_cash_flow", net_profit + depreciation r.1)].

(** A quotient, with the factor its column applies to it, if any. *)
Definition scaled (q : float) (k : option float) : float :=
  match k with
  | Some k => q * k
  | None => q
  end.

(** The 18 ratio columns of a row: name, numerator, denominator and
    factor. *)
Definition raw_ratios : list (string * float * float * option float) :=
  [("gross_margin_percent", gross_margin, revenue r.1, Some 100);
   ("operating_profit_percent", operating_profit, revenue r.1, Some 100);
   ("net_profit_percent", net_profit, revenue r.1, Some 100);
   ("ebitda_percent", ebitda, revenue r.1, Some 100);
   ("interest_coverage", operating_profit, interest_paid r.1, None);
   ("accounts_receivable_days", accounts_receivable r.1, revenue r.1,
    Some 365);
   ("inventory_days", inventory r.1, cost_of_goods r.1, Some 365);
   ("accounts_payable_days", accounts_payable r.1, cost_of_goods r.1,
    Some 365);
   ("working_capital_per_100", working_capital, revenue r.1, Some 100);
   ("current_ratio", current_assets, current_liabilities r.1, None);
   ("return_on_capital", operating_profit, total_capital, Some 100);
   ("asset_turnover", revenue r.1, total_assets, None);
   ("return_on_equity", net_profit, equity, Some 100);
   ("return_on_assets", net_profit, total_assets, Some 100);
   ("fixed_assets_turnover", revenue r.1, fixed_assets r.1, None);
   ("debt_to_equity", total_liabilities, equity, None);
   ("debt_to_capital", total_liabilities, total_capital_debt, None);
   ("equity_ratio", equity, total_assets, Some 100)].

End Row.

(** A factor that is an ordinary number: finite and not zero. *)
Definition ordinary_factor (k : option float) : Prop :=
  match k with
  | Some k =>
      match Prim2SF k with
      | S754_finite _ _ _ => True
      | _ => False
      end
  | None => True
  end.

(** A frame given row by row: column [name] holds [g] of every row, for
    the entry [g] of [G] at [name]. *)
Definition frame (labels : list string) (rows : list row)
    (G : gmap string (row → float)) : DataFrame :=
  {| period_col := labels;
     columns := (fun g : row → float => g <$> rows) <$> G |}.

(** The thirteen columns of [from_records], row by row. *)
Definition base_columns : gmap string (row → float) :=
  <["revenue" := fun r : row => revenue r.1]> (
  <["cost_of_goods" := fun r : row => cost_of_goods r.1]> (
  <["overheads" := fun r : row => overheads r.1]> (
  <["depreciation" := fun r : row => depreciation r.1]> (
  <["interest_paid" := fun r : row => interest_paid r.1]> (
  <["tax_paid" := fun r : row => tax_paid r.1]> (
  <["cash" := fun r : row => cash r.1]> (
  <["accounts_receivable" := fun r : row => accounts_receivable r.1]> (
  <["inventory" := fun r : row => inventory r.1]> (
  <["fixed_assets" := fun r : row => fixed_assets r.1]> (
  <["current_liabilities" := fun r : row => current_liabilities r.1]> (
  <["noncurrent_liabilities" :=
      fun r : row => noncurrent_liabilities r.1]> (
  <["accounts_payable" := fun r : row => accounts_payable r.1]>
    ∅)))))))))))).

(** The columns of the returned frame: the thirteen inputs, the eleven
    intermediate columns and the 21 calculated ones. *)
Definition output_columns : list string :=
  input_columns
  ++ ["gross_margin"; "operating_profit"; "ebitda"; "net_profit";
      "current_assets"; "working_capital"; "total_assets";
      "total_liabilities"; "equity"; "total_capital"; "total_capital_debt"]
  ++ calculated_columns.

End Rowwise.

(** * Properties *)

(** ** Floats and guarded divisions *)

Section Guards.

Import Num Derived.
#[local] Open Scope float_scope.

Lemma gt0_not_eq0 (d : float) : gt0 d = true → eq0 d = false.
Proof.
  unfold gt0, eq0. rewrite FloatAxioms.ltb_spec, FloatAxioms.eqb_spec.
  change (Prim2SF 0) with (S754_zero false).
  destruct (Prim2SF d) as [[]|[]| |[] m e]; cbn; congruence.
Qed.

Lemma le0_not_gt0 (d : float) : le0 d = true → gt0 d = false.
Proof.
  unfold gt0, le0. rewrite FloatAxioms.ltb_spec, FloatAxioms.leb_spec.
  change (Prim2SF 0) with (S754_zero false).
  destruct (Prim2SF d) as [[]|[]| |[] m e]; cbn; congruence.
Qed.

Lemma truediv_guarded (n d : float) : gt0 d = true → truediv n d = Ok (n / d).
Proof. intros H. unfold truediv. by rewrite (gt0_not_eq0 d H). Qed.

Lemma guard_scaled (n d k : float) :
  (if gt0 d then q ← truediv n d; mret (q * k) else mret 0)
  = Ok (guarded d (n / d * k)).
Proof.
  unfold guarded. destruct (gt0 d) eqn:H; [|done].
  by rewrite (truediv_guarded n d H).
Qed.

Lemma guard_plain (n d : float) :
  (if gt0 d then truediv n d else mret 0) = Ok (guarded d (n / d)).
Proof.
  unfold guarded. destruct (gt0 d) eqn:H; [|done].
  by rewrite (truediv_guarded n d H).
Qed.

Lemma py_round2_zero : py_round2 0 = 0.
Proof. reflexivity. Qed.

Lemma guarded_off (d v : float) : gt0 d = false → py_round2 (guarded d v) = 0.
Proof. intros H. unfold guarded. by rewrite H. Qed.

Lemma guarded_on (d v : float) : gt0 d = true → guarded d v = v.
Proof. intros H. unfold guarded. by rewrite H. Qed.

Lemma getitem_Some (m : gmap string float) k v :
  m !! k = Some v → getitem m k = Ok v.
Proof. intros H. unfold getitem. by rewrite H. Qed.

(** A non-empty previous dict is all [has_base] asks beyond the positive
    revenue, and a positive revenue makes the dict non-empty. *)
Lemma has_base_Some (p : gmap string float) :
  has_base (Some p) = gt0 (get p "revenue").
Proof.
  unfold has_base, truthy. cbn [default].
  destruct (bool_decide_reflect (p = ∅)) as [->|_]; [|done].
  reflexivity.
Qed.

Lemma has_base_None : has_base None = false.
Proof. reflexivity. Qed.

End Guards.

(** Reads one key of a dict built by a chain of stores. *)
Ltac lookup_chain :=
  repeat (rewrite lookup_insert_ne by done);
  first [apply lookup_insert_eq | apply lookup_empty].

(** ** The engine returns the dict [analytics_of] *)

Section Engine.

Import Num Derived Calc.
#[local] Open Scope float_scope.

Lemma growth_entry (revenue : float) previous_period :
  (if truthy previous_period
      && gt0 (get (default ∅ previous_period) "revenue")
   then
     prev_revenue ← getitem (default ∅ previous_period) "revenue";
     q ← truediv (revenue - prev_revenue) prev_revenue;
     mret (<["revenue_growth_percent" := py_round2 (q * 100)]>
             (∅ : gmap string float))
   else mret (<["revenue_growth_percent" := 0]> ∅))
  = Ok (<["revenue_growth_percent" :=
           if has_base previous_period then
             let prev_revenue := get (default ∅ previous_period) "revenue" in
             py_round2 ((revenue - prev_revenue) / prev_revenue * 100)
           else 0]> ∅).
Proof.
  unfold has_base.
  destruct (truthy previous_period); [|done]. cbn [andb].
  destruct (gt0 (get _ "revenue")) eqn:H; [|done].
  unfold get, getitem in *.
  destruct (default ∅ previous_period !! "revenue") as [v|]; [|done].
  cbn in *. by rewrite (truediv_guarded _ _ H).
Qed.

Lemma calculate_analytics_eq financial_data previous_period :
  calculate_analytics financial_data previous_period
  = Ok (analytics_of financial_data previous_period).
Proof.
  unfold calculate_analytics.
  rewrite growth_entry. cbn [mbind result_bind].
  repeat (first [rewrite guard_scaled | rewrite guard_plain];
          cbn [mbind result_bind]).
  erewrite (getitem_Some _ "accounts_receivable_days") by lookup_chain.
  cbn [mbind result_bind].
  erewrite (getitem_Some _ "inventory_days") by lookup_chain.
  cbn [mbind result_bind].
  erewrite (getitem_Some _ "accounts_payable_days") by lookup_chain.
  cbn [mbind result_bind].
  repeat (first [rewrite guard_scaled | rewrite guard_plain];
          cbn [mbind result_bind]).
  reflexivity.
Qed.

Lemma metric_eq financial_data previous_period name :
  metric (calculate_analytics financial_data previous_period) name
  = analytics_of financial_data previous_period !! name.
Proof. by rewrite calculate_analytics_eq. Qed.

(** Every ratio metric is stored as its own guarded value, rounded. *)
Lemma ratios_stored financial_data previous_period :
  Forall (fun '(name, d, v) =>
            analytics_of financial_data previous_period !! name
            = Some (py_round2 (guarded d v)))
         (ratios financial_data).
Proof. unfold ratios, analytics_of. repeat constructor; lookup_chain. Qed.

Lemma ratio_stored financial_data previous_period name d v :
  (name, d, v) ∈ ratios financial_data →
  analytics_of financial_data previous_period !! name
  = Some (py_round2 (guarded d v)).
Proof.
  intros H.
  exact (proj1 (Forall_forall _ _) (ratios_stored _ previous_period) _ H).
Qed.

Lemma dom_analytics_of financial_data previous_period :
  dom (analytics_of financial_data previous_period)
  = list_to_set Pandas.calculated_columns.
Proof.
  unfold analytics_of. rewrite !dom_insert_L, dom_empty_L.
  unfold Pandas.calculated_columns. cbn [list_to_set]. set_solver.
Qed.

End Engine.

(** ** Claims about the scalar engine *)

Section Scalar.

Import Num Derived Calc.
#[local] Open Scope float_scope.

(** C3: for every input whose revenue is strictly positive,
    [calculate_analytics] returns, and its [gross_margin_percent] is
    [round((revenue - cost_of_goods) / revenue * 100, 2)]. *)
Theorem gross_margin_percent_formula
    (financial_data : gmap string float)
    (previous_period : option (gmap string float)) :
  gt0 (get financial_data "revenue") = true →
  metric (calculate_analytics financial_data previous_period)
         "gross_margin_percent"
  = Some (py_round2 ((get financial_data "revenue"
                      - get financial_data "cost_of_goods")
                     / get financial_data "revenue" * 100)).
Proof.
  intros Hrev. rewrite metric_eq.
  rewrite (ratio_stored financial_data previous_period
             "gross_margin_percent" (revenue financial_data)
             (gross_margin financial_data / revenue financial_data * 100))
    by (unfold ratios; set_solver).
  by rewrite guarded_on.
Qed.

(** The scenario of the test suite: revenue 1,000,000 and cost of goods
    600,000 give a gross margin of 40.0 percent. *)
Lemma gross_margin_percent_formula_witness :
  gt0 (get Samples.gross_margin_data "revenue") = true
  ∧ metric (calculate_analytics Samples.gross_margin_data None)
           "gross_margin_percent" = Some 40.
Proof.
  split; [reflexivity|].
  exact (gross_margin_percent_formula Samples.gross_margin_data None
           eq_refl).
Defined.

(** The other three scenarios of the test suite. *)
Example test_scenarios :
  metric (calculate_analytics Samples.net_profit_data None)
         "net_profit_percent" = Some 16
  ∧ metric (calculate_analytics Samples.receivable_days_data None)
           "accounts_receivable_days" = Some 100
  ∧ metric (calculate_analytics Samples.return_on_equity_data None)
           "return_on_equity" = Some 32.
Proof. vm_compute. repeat split. Qed.




(** C9: two previous periods with the same [revenue] entry give the same
    metric set: nothing else of the previous period is read. *)
Theorem previous_period_only_revenue
    (financial_data p1 p2 : gmap string float) :
  p1 !! "revenue" = p2 !! "revenue" →
  calculate_analytics financial_data (Some p1)
  = calculate_analytics financial_data (Some p2).
Proof.
  intros H. rewrite !calculate_analytics_eq. f_equal.
  assert (revenue_growth_percent financial_data (Some p1)
          = revenue_growth_percent financial_data (Some p2)) as Hg.
  { unfold revenue_growth_percent. rewrite !has_base_Some.
    change (default ∅ (Some p1)) with p1.
    change (default ∅ (Some p2)) with p2.
    unfold get. by rewrite H. }
  unfold analytics_of. by rewrite Hg.
Qed.

End Scalar.

Section ScalarWitnesses.

Import Num Calc Models.
#[local] Open Scope float_scope.

(** Two previous periods that differ in every entry but the revenue. *)
Lemma previous_period_only_revenue_witness :
  model_dump Demo.y2015 !! "revenue"
  = ({[ "revenue" := 3400000 ]} : gmap string float) !! "revenue"
  ∧ calculate_analytics (model_dump Demo.y2016)
      (Some (model_dump Demo.y2015))
    = calculate_analytics (model_dump Demo.y2016)
        (Some {[ "revenue" := 3400000 ]}).
Proof.
  split; [reflexivity|].
  apply (previous_period_only_revenue (model_dump Demo.y2016)
           (model_dump Demo.y2015) {[ "revenue" := 3400000 ]}).
  reflexivity.
Defined.

End ScalarWitnesses.

(** ** Claims about the models *)

Section ModelClaims.

Import Models.

(** C10: a [BatchAnalyticsResponse] that has been constructed holds in
    [total_periods] the length of its [periods], whatever [total_periods]
    the caller passed, and [periods] is the list the caller passed. *)
Theorem total_periods_is_length (data : kwargs)
    (self : BatchAnalyticsResponse) :
  BatchAnalyticsResponse_init data = Ok self →
  total_periods self = Z.of_nat (length (periods self))
  ∧ kw_periods data = Some (periods self).
Proof.
  unfold BatchAnalyticsResponse_init, BaseModel_init.
  destruct (kw_company_name data) as [name|]; [|discriminate].
  destruct (kw_periods data) as [ps|]; [|discriminate].
  cbn. intros [= <-]. by cbn.
Qed.

(** A response built with a wrong count of 7 for one period. *)
Lemma total_periods_is_length_witness :
  BatchAnalyticsResponse_init Samples.miscounted = Ok Samples.counted
  ∧ total_periods Samples.counted
    = Z.of_nat (length (periods Samples.counted))
  ∧ kw_periods Samples.miscounted = Some (periods Samples.counted).
Proof.
  split; [reflexivity|].
  apply (total_periods_is_length Samples.miscounted Samples.counted).
  reflexivity.
Defined.

End ModelClaims.

(** ** Claims about [validate_financial_data] *)

Section Validation.

Import Num Validate.

Lemma check_non_negative_spec (data : raw_dict) (fields : list string) :
  Forall (fun field => data !! field ≠ Some None) fields →
  ∃ r, check_non_negative data fields = Ok r
       ∧ (r = None ↔ existsb (negative_at data) fields = false).
Proof.
  induction fields as [|field rest IH]; intros HF.
  - by exists None.
  - apply Forall_cons in HF as [Hfield Hrest].
    destruct (IH Hrest) as (r & Hr & Hiff).
    cbn [check_non_negative existsb]. unfold negative_at at 1.
    destruct (data !! field) as [[v|]|]; [|done|].
    + destruct (lt0 v).
      * eexists. split; [done|]. by split.
      * by exists r.
    + by exists r.
Qed.

(** C8, as the code has it: [validate_financial_data] fails exactly when
    [revenue] is missing (absent or [None]) or one of [revenue], [cash],
    [accounts_receivable], [inventory], [fixed_assets] is present and
    negative; on every other dict whose listed fields are numbers it returns
    [(True, "")].  A revenue of 0 is accepted here. *)
Theorem validate_financial_data_rule (data : raw_dict) :
  numeric data →
  ((∃ msg, validate_financial_data data = Ok (false, msg))
   ↔ rejects data = true)
  ∧ (rejects data = false → validate_financial_data data = Ok (true, "")).
Proof.
  intros Hnum. unfold validate_financial_data, rejects, required_fields.
  cbn [check_required].
  destruct (data !! "revenue") as [[r|]|] eqn:Hrev;
    [|split; [split; [done|by eexists]|done]..].
  assert (Forall (fun field => data !! field ≠ Some None)
            non_negative_fields) as HF.
  { apply Forall_cons. split; [by rewrite Hrev|done]. }
  destruct (check_non_negative_spec data _ HF) as (res & -> & Hiff).
  cbn [mbind result_bind orb].
  destruct res as [msg|].
  - assert (existsb (negative_at data) non_negative_fields = true) as ->.
    { destruct (existsb _ _); [done|]. discriminate (proj2 Hiff eq_refl). }
    split; [split; [done|by eexists]|done].
  - rewrite (proj1 Hiff eq_refl).
    split; [split; [by intros [? [=]]|done]|done].
Qed.

Lemma validate_financial_data_rule_witness :
  numeric Samples.negative_cash
  ∧ ((∃ msg, validate_financial_data Samples.negative_cash = Ok (false, msg))
     ↔ rejects Samples.negative_cash = true)
  ∧ (rejects Samples.negative_cash = false →
     validate_financial_data Samples.negative_cash = Ok (true, "")).
Proof.
  assert (numeric Samples.negative_cash) as Hnum.
  { unfold numeric. repeat constructor; by vm_compute. }
  split; [exact Hnum|].
  exact (validate_financial_data_rule Samples.negative_cash Hnum).
Defined.

(** C8, as the claim words it, fails on a revenue of 0: the claim counts it
    as a failure, the function returns [(True, "")]. *)
Lemma validate_accepts_zero_revenue :
  ¬ ((∃ msg, validate_financial_data Samples.zero_revenue = Ok (false, msg))
     ↔ spec_rejects Samples.zero_revenue = true).
Proof.
  intros [_ H]. destruct (H eq_refl) as [msg Hmsg].
  vm_compute in Hmsg. discriminate.
Qed.

(** The revenue validator of [FinancialData] is the one that refuses 0. *)
Lemma revenue_must_be_positive_zero :
  validate_financial_data Samples.zero_revenue = Ok (true, "")
  ∧ Models.revenue_must_be_positive 0
    = Raise (ValueError "Revenue must be greater than 0").
Proof. split; reflexivity. Qed.

End Validation.

(** ** The vectorized variant against the scalar engine *)

Section Vectorized.

Import Num Derived Calc Models Pandas.
#[local] Open Scope float_scope.

(** The sample periods are valid [FinancialData], and the demo periods are
    already in the order [sort_values] gives them. *)
Lemma samples_valid :
  Forall (fun d => validate d = Ok d)
         (Samples.indebted :: Demo.get_rebeccas_data)
  ∧ period_col (sort_values (from_records Demo.get_rebeccas_data))
    = ["2015"; "2016"; "2017"; "2018"]
  ∧ period_col (sort_values (from_records Samples.first_three))
    = ["2015"; "2016"; "2017"]
  ∧ period_col (sort_values (from_records Samples.then_indebted))
    = ["2015"; "2016"; "2024"].
Proof. split; [repeat constructor|repeat split]. Qed.

(** C1, on the vectorized variant: a period without current liabilities
    and with negative equity.  The scalar engine stores 0.0 for
    [current_ratio] and [debt_to_equity]; [calculate_analytics_df] stores
    NaN (from 0/0) and -1.25 (the quotient by the negative equity). *)
Theorem df_zero_guard_missing :
  let fd := model_dump Samples.indebted in
  let frame := calculate_analytics_df (from_records [Samples.indebted]) in
  le0 (Derived.current_liabilities fd) = true
  ∧ le0 (Derived.equity fd) = true
  ∧ metric (calculate_analytics fd None) "current_ratio" = Some 0
  ∧ metric (calculate_analytics fd None) "debt_to_equity" = Some 0
  ∧ cell frame "current_ratio" 0 = Some nan
  ∧ cell frame "debt_to_equity" 0 = Some (-1.25).
Proof. vm_compute. repeat split. Qed.

(** C2, on the vectorized variant: two three-period sequences whose third
    row differs from the scalar engine called on the third period with the
    second as previous period.  After two demo years, the indebted period
    gets -1.25 and NaN where the engine stores 0.0; in the first three demo
    years the working capital days are 172.68 against 172.67. *)
Theorem df_third_period_differs :
  let frame := calculate_analytics_df (from_records Samples.then_indebted) in
  let scalar := calculate_analytics (model_dump Samples.indebted)
                  (Some (model_dump Demo.y2016)) in
  metric scalar "debt_to_equity" = Some 0
  ∧ cell frame "debt_to_equity" 2 = Some (-1.25)
  ∧ metric scalar "current_ratio" = Some 0
  ∧ cell frame "current_ratio" 2 = Some nan
  ∧ metric (calculate_analytics (model_dump Demo.y2017)
              (Some (model_dump Demo.y2016))) "working_capital_days"
    = Some 172.67
  ∧ cell (calculate_analytics_df (from_records Samples.first_three))
         "working_capital_days" 2
    = Some 172.68
  ∧ (172.67 =? 172.68) = false.
Proof. vm_compute. repeat split. Qed.

(** C4, on the vectorized variant: the first demo year has no
    predecessor; the scalar engine stores a growth of 0.0,
    [calculate_analytics_df] stores NaN. *)
Theorem df_first_period_growth_nan :
  metric (calculate_analytics (model_dump Demo.y2015) None)
         "revenue_growth_percent" = Some 0
  ∧ cell (calculate_analytics_df (from_records Demo.get_rebeccas_data))
         "revenue_growth_percent" 0
    = Some nan.
Proof. vm_compute. repeat split. Qed.

(** C5, on the vectorized variant: in the first row of the demo frame the
    three day counts are 85.88, 136.88 and 60.83, whose sum and difference
    is 161.93 under either rounding, and [working_capital_days] is
    161.92. *)
Theorem df_working_capital_days_not_sum :
  let frame := calculate_analytics_df (from_records Demo.get_rebeccas_data) in
  cell frame "accounts_receivable_days" 0 = Some 85.88
  ∧ cell frame "inventory_days" 0 = Some 136.88
  ∧ cell frame "accounts_payable_days" 0 = Some 60.83
  ∧ cell frame "working_capital_days" 0 = Some 161.92
  ∧ np_round2 (85.88 + 136.88 - 60.83) = 161.93
  ∧ py_round2 (85.88 + 136.88 - 60.83) = 161.93
  ∧ (161.92 =? 85.88 + 136.88 - 60.83) = false.
Proof. vm_compute. repeat split. Qed.

End Vectorized.

(** ** What the scalar engine and the batch endpoint do keep *)

Section Kept.

Import Num Derived Calc.
#[local] Open Scope float_scope.

(** X1: in [calculate_analytics], a ratio metric whose denominator is zero
    or negative is exactly 0.0. *)
Theorem scalar_zero_guard
    (financial_data : gmap string float)
    (previous_period : option (gmap string float))
    (name : string) (d v : float) :
  (name, d, v) ∈ ratios financial_data →
  le0 d = true →
  metric (calculate_analytics financial_data previous_period) name = Some 0.
Proof.
  intros Hin Hle. rewrite metric_eq, (ratio_stored _ _ _ _ _ Hin).
  by rewrite guarded_off by by apply le0_not_gt0.
Qed.

Lemma scalar_zero_guard_witness :
  let fd := Models.model_dump Samples.indebted in
  ("debt_to_equity", equity fd, total_liabilities fd / equity fd)
    ∈ ratios fd
  ∧ le0 (equity fd) = true
  ∧ metric (calculate_analytics fd None) "debt_to_equity" = Some 0.
Proof.
  assert (("debt_to_equity",
           equity (Models.model_dump Samples.indebted),
           total_liabilities (Models.model_dump Samples.indebted)
           / equity (Models.model_dump Samples.indebted))
          ∈ ratios (Models.model_dump Samples.indebted)) as Hin.
  { unfold ratios. do 15 apply list_elem_of_further.
    apply list_elem_of_here. }
  split; [exact Hin|]. split; [reflexivity|].
  exact (scalar_zero_guard _ None _ _ _ Hin eq_refl).
Defined.

(** X3: in [calculate_analytics], the growth is 0.0 when no previous period
    is given or its revenue is not strictly positive. *)
Theorem scalar_growth_default
    (financial_data : gmap string float)
    (previous_period : option (gmap string float)) :
  previous_period = None
  ∨ (∃ p, previous_period = Some p ∧ gt0 (get p "revenue") = false) →
  metric (calculate_analytics financial_data previous_period)
         "revenue_growth_percent" = Some 0.
Proof.
  intros H. rewrite metric_eq. unfold analytics_of.
  repeat (rewrite lookup_insert_ne by done). rewrite lookup_insert_eq.
  unfold revenue_growth_percent.
  destruct H as [->|(p & -> & Hp)].
  - by rewrite has_base_None.
  - by rewrite has_base_Some, Hp.
Qed.

Lemma scalar_growth_default_witness :
  metric (calculate_analytics (Models.model_dump Demo.y2015) None)
         "revenue_growth_percent" = Some 0.
Proof.
  exact (scalar_growth_default (Models.model_dump Demo.y2015) None
           (or_introl eq_refl)).
Defined.

(** X4: in the dict [calculate_analytics] returns, [working_capital_days]
    is the rounding of receivable days plus inventory days minus payable
    days, taken from the same dict. *)
Theorem scalar_working_capital_days
    (financial_data : gmap string float)
    (previous_period : option (gmap string float)) :
  ∃ a ar inv ap,
    calculate_analytics financial_data previous_period = Ok a
    ∧ a !! "accounts_receivable_days" = Some ar
    ∧ a !! "inventory_days" = Some inv
    ∧ a !! "accounts_payable_days" = Some ap
    ∧ a !! "working_capital_days" = Some (py_round2 (ar + inv - ap)).
Proof.
  exists (analytics_of financial_data previous_period),
    (accounts_receivable_days financial_data),
    (inventory_days financial_data),
    (accounts_payable_days financial_data).
  split; [apply calculate_analytics_eq|].
  unfold analytics_of. repeat split; lookup_chain.
Qed.

End Kept.

Section Endpoint.

Import Models Api.

(** X2: [calculate_batch] on three periods returns three results, and the
    metric set of the third is the one [calculate_analytics] returns for the
    third period with the second as previous period. *)
Theorem calculate_batch_third_period
    (name : string) (p0 p1 p2 : FinancialData) :
  ∃ resp r,
    calculate_batch {| request_company_name := name;
                       request_periods := [p0; p1; p2] |} = Ok resp
    ∧ total_periods resp = 3
    ∧ periods resp !! 2%nat = Some r
    ∧ input_data r = p2
    ∧ previous_period r = Some p1
    ∧ Calc.calculate_analytics (model_dump p2) (Some (model_dump p1))
      = Ok (analytics r).
Proof.
  unfold calculate_batch. cbn [request_periods request_company_name].
  unfold for_enumerate, batch_step.
  cbn [Nat.ltb Nat.leb lookup list_lookup Nat.sub mbind result_bind fmap
       option_fmap option_map].
  rewrite !calculate_analytics_eq.
  cbn [mbind result_bind mret result_ret app].
  eexists _, _. split; [reflexivity|].
  cbn. repeat split.
Qed.

End Endpoint.

(** * Further properties *)

(** ** The engine's inputs *)

Section Inputs.

Import Num Derived Calc.
#[local] Open Scope float_scope.

(** X5: [calculate_analytics] reads [financial_data] only through
    [.get(key, 0)] on its thirteen keys: an absent key counts as 0 and any
    other key is ignored. *)
Theorem engine_reads_only_fields
    (fd1 fd2 : gmap string float)
    (previous_period : option (gmap string float)) :
  (∀ key, key ∈ input_fields → get fd1 key = get fd2 key) →
  calculate_analytics fd1 previous_period
  = calculate_analytics fd2 previous_period.
Proof.
  intros H. rewrite !calculate_analytics_eq. f_equal.
  assert (Forall (fun key => get fd1 key = get fd2 key) input_fields) as HF.
  { by apply Forall_forall. }
  unfold input_fields in HF.
  repeat (apply Forall_cons in HF as [? HF]).
  unfold analytics_of, revenue_growth_percent, accounts_receivable_days,
    inventory_days, accounts_payable_days, total_capital_debt, total_capital,
    equity, total_liabilities, total_assets, working_capital, current_assets,
    net_profit, ebitda, operating_profit, gross_margin, revenue, cogs,
    overheads, depreciation, interest, tax, cash, receivables, inventory,
    fixed_assets, current_liabilities, noncurrent_liabilities, payables.
  repeat match goal with
         | Heq : get fd1 _ = get fd2 _ |- _ => rewrite Heq; clear Heq
         end.
  reflexivity.
Qed.

(** A dict against the same dict with an explicit zero and a foreign
    key. *)
Lemma engine_reads_only_fields_witness :
  calculate_analytics Samples.gross_margin_data None
  = calculate_analytics
      (<["headcount" := 12]> (<["cash" := 0]> Samples.gross_margin_data))
      None.
Proof.
  apply engine_reads_only_fields. intros key Hkey.
  unfold input_fields in Hkey.
  repeat (apply elem_of_cons in Hkey as [->|Hkey]; [reflexivity|]).
  by apply elem_of_nil in Hkey.
Defined.

(** X6: a previous period whose revenue is not strictly positive, the
    empty dict among them, is the same as no previous period. *)
Theorem unusable_previous_is_none
    (financial_data p : gmap string float) :
  gt0 (get p "revenue") = false →
  calculate_analytics financial_data (Some p)
  = calculate_analytics financial_data None.
Proof.
  intros H. rewrite !calculate_analytics_eq. f_equal.
  assert (revenue_growth_percent financial_data (Some p)
          = revenue_growth_percent financial_data None) as Hg.
  { unfold revenue_growth_percent.
    by rewrite has_base_Some, has_base_None, H. }
  unfold analytics_of. by rewrite Hg.
Qed.

Lemma unusable_previous_is_none_witness :
  calculate_analytics (Models.model_dump Demo.y2016) (Some ∅)
  = calculate_analytics (Models.model_dump Demo.y2016) None.
Proof.
  apply (unusable_previous_is_none (Models.model_dump Demo.y2016) ∅).
  reflexivity.
Defined.

End Inputs.

(** ** Explanations *)

Section Explanations.

Import Explain.

Lemma dom_explanations :
  dom explanations = list_to_set Pandas.calculated_columns.
Proof.
  unfold explanations. rewrite dom_list_to_map_L. reflexivity.
Qed.

(** X7: [get_metric_explanation] answers with a description exactly for
    the keys of the dict [calculate_analytics] returns, and with the
    fallback text for every other name. *)
Theorem explanation_iff_metric
    (financial_data : gmap string float)
    (previous_period : option (gmap string float))
    (metric_name : string) :
  get_metric_explanation metric_name ≠ no_explanation
  ↔ is_Some (metric (Calc.calculate_analytics financial_data previous_period)
               metric_name).
Proof.
  rewrite metric_eq, <- elem_of_dom, dom_analytics_of.
  unfold get_metric_explanation. split.
  - intros H. rewrite <- dom_explanations. apply elem_of_dom.
    destruct (explanations !! metric_name); [by eexists|done].
  - intros H. apply elem_of_list_to_set in H.
    unfold Pandas.calculated_columns in H.
    repeat (apply elem_of_cons in H as [->|H]; [by vm_compute|]).
    by apply elem_of_nil in H.
Qed.

End Explanations.

(** ** The endpoints *)

Section Endpoints.

Import Num Derived Models Api.
#[local] Open Scope float_scope.

Lemma batch_step_Ok (all pre rest : list FinancialData) (p : FinancialData) :
  all = pre ++ p :: rest →
  batch_step all (length pre) p
  = Ok {| input_data := p;
          analytics := analytics_of (model_dump p) (model_dump <$> last pre);
          previous_period := last pre |}.
Proof.
  intros ->. unfold batch_step.
  destruct pre as [|q pre _] using rev_ind.
  - cbn [length Nat.ltb Nat.leb mbind result_bind last].
    by rewrite calculate_analytics_eq.
  - rewrite length_app, Nat.add_1_r. cbn [Nat.ltb Nat.leb].
    replace (S (length pre) - 1)%nat with (length pre) by lia.
    rewrite <- app_assoc, lookup_app_r, Nat.sub_diag by done.
    cbn [app lookup list_lookup mbind result_bind].
    rewrite last_snoc. by rewrite calculate_analytics_eq.
Qed.

(** The loop of [calculate_batch], started after the periods [pre]. *)
Lemma for_enumerate_batch (all : list FinancialData) :
  ∀ (l pre : list FinancialData) (acc : list AnalyticsResponse),
    all = pre ++ l →
    for_enumerate (batch_step all) (length pre) l acc
    = Ok (acc ++ batch_results (last pre) l).
Proof.
  induction l as [|p rest IH]; intros pre acc Hall.
  - cbn. by rewrite app_nil_r.
  - cbn [for_enumerate batch_results].
    rewrite (batch_step_Ok all pre rest p Hall). cbn [mbind result_bind].
    specialize (IH (pre ++ [p])).
    rewrite length_app, Nat.add_1_r, last_snoc in IH.
    rewrite IH by by rewrite <- app_assoc.
    by rewrite <- app_assoc.
Qed.

Lemma length_batch_results previous l :
  length (batch_results previous l) = length l.
Proof.
  revert previous. induction l as [|p rest IH]; intros previous; [done|].
  cbn. by rewrite IH.
Qed.

Lemma batch_results_lookup (l : list FinancialData) :
  ∀ (previous : option FinancialData) (i : nat) (p : FinancialData),
    l !! i = Some p →
    ∃ r, batch_results previous l !! i = Some r
         ∧ input_data r = p
         ∧ previous_period r
           = match i with O => previous | S j => l !! j end
         ∧ analytics r
           = analytics_of (model_dump p) (model_dump <$> previous_period r).
Proof.
  induction l as [|q rest IH]; intros previous i p Hi; [done|].
  destruct i as [|i].
  - injection Hi as ->. by eexists.
  - cbn in Hi. destruct (IH (Some q) i p Hi) as (r & Hr & Hin & Hprev & Han).
    exists r. split; [done|]. split; [done|]. split; [|done].
    rewrite Hprev. by destruct i.
Qed.

(** X8: [calculate_batch] answers every request, never with a 500: the
    response holds one result per period, in the order of the request, with
    [total_periods] their number; result [i] carries period [i], period
    [i - 1] of the request as previous period (none for the first), and the
    dict [calculate_analytics] returns for the two.  The periods are not
    sorted. *)
Theorem calculate_batch_all (request : BatchCalculationRequest) :
  ∃ resp,
    calculate_batch request = Ok resp
    ∧ response_company_name resp = request_company_name request
    ∧ total_periods resp = Z.of_nat (length (request_periods request))
    ∧ length (periods resp) = length (request_periods request)
    ∧ ∀ i p, request_periods request !! i = Some p →
        ∃ r, periods resp !! i = Some r
             ∧ input_data r = p
             ∧ previous_period r
               = match i with
                 | O => None
                 | S j => request_periods request !! j
                 end
             ∧ Calc.calculate_analytics (model_dump p)
                 (model_dump <$> previous_period r)
               = Ok (analytics r).
Proof.
  unfold calculate_batch.
  pose proof (for_enumerate_batch (request_periods request)
                (request_periods request) [] [] eq_refl) as Hloop.
  cbn [length] in Hloop. rewrite Hloop.
  cbn. eexists. split; [reflexivity|]. cbn.
  rewrite length_batch_results. repeat split.
  intros i p Hi.
  destruct (batch_results_lookup _ None i p Hi) as (r & Hr & Hin & Hprev & Han).
  exists r. repeat split; try done.
  by rewrite calculate_analytics_eq, Han.
Qed.

End Endpoints.

(** ** Validated records *)

Section Validated.

Import Num Derived Models Api.
#[local] Open Scope float_scope.


Lemma ge0_not_lt0 (v : float) : ge0 v = true → lt0 v = false.
Proof.
  unfold ge0, lt0. rewrite FloatAxioms.leb_spec, FloatAxioms.ltb_spec.
  change (Prim2SF 0) with (S754_zero false).
  destruct (Prim2SF v) as [[]|[]| |[] m e]; cbn; congruence.
Qed.

Lemma validate_inv (d d' : FinancialData) :
  validate d = Ok d' →
  d' = d ∧ field_constraints d = true ∧ le0 (revenue d) = false.
Proof.
  unfold validate, revenue_must_be_positive.
  destruct (field_constraints d); [|done].
  destruct (le0 (revenue d)); [done|]. by intros [= <-].
Qed.






(** X10: a record that [FinancialData] accepts is accepted by
    [validate_financial_data] when dumped to a dict. *)
Theorem validated_passes_dict_check (d : FinancialData) :
  validate d = Ok d →
  Validate.validate_financial_data (raw_dump d) = Ok (true, "").
Proof.
  intros (_ & Hc & _)%validate_inv.
  unfold field_constraints in Hc. apply andb_prop in Hc as [_ Hc].
  cbn [forallb] in Hc.
  repeat (apply andb_prop in Hc as [?%ge0_not_lt0 Hc]).
  unfold Validate.validate_financial_data, Validate.required_fields,
    Validate.non_negative_fields, raw_dump.
  cbn [Validate.check_required Validate.check_non_negative].
  unfold Validate.raw_dict.
  rewrite !lookup_fmap.
  change (model_dump d !! "revenue") with (Some (revenue d)).
  change (model_dump d !! "cash") with (Some (cash d)).
  change (model_dump d !! "accounts_receivable")
    with (Some (accounts_receivable d)).
  change (model_dump d !! "inventory") with (Some (inventory d)).
  change (model_dump d !! "fixed_assets") with (Some (fixed_assets d)).
  cbn [fmap option_fmap option_map].
  repeat match goal with Hlt : lt0 _ = false |- _ => rewrite Hlt; clear Hlt end.
  reflexivity.
Qed.

Lemma validated_passes_dict_check_witness :
  Validate.validate_financial_data (raw_dump Demo.y2018) = Ok (true, "").
Proof. apply validated_passes_dict_check. reflexivity. Defined.

End Validated.

(** ** Messages and errors of [validate_financial_data] *)

Section Messages.

Import Num Validate.

Lemma check_non_negative_find (data : raw_dict) (fields : list string) :
  Forall (fun field => data !! field ≠ Some None) fields →
  check_non_negative data fields
  = Ok ((fun field => field +:+ " cannot be negative")
          <$> List.find (negative_at data) fields).
Proof.
  induction fields as [|field rest IH]; intros HF; [done|].
  apply Forall_cons in HF as [Hfield Hrest].
  cbn [check_non_negative List.find]. unfold negative_at at 1.
  destruct (data !! field) as [[v|]|]; [|done|by apply IH].
  destruct (lt0 v); [done|by apply IH].
Qed.

Lemma check_non_negative_raises (data : raw_dict) (fields : list string)
    (e : exn) :
  check_non_negative data fields = Raise e →
  e = TypeError ∧ ∃ field, field ∈ fields ∧ data !! field = Some None.
Proof.
  induction fields as [|field rest IH]; [done|].
  cbn [check_non_negative].
  destruct (data !! field) as [[v|]|] eqn:Hfield.
  - destruct (lt0 v); [done|]. intros (-> & f & Hf & Hnone)%IH.
    split; [done|]. exists f. split; [by right|done].
  - intros [= <-]. split; [done|]. exists field. split; [by left|done].
  - intros (-> & f & Hf & Hnone)%IH.
    split; [done|]. exists f. split; [by right|done].
Qed.

(** X11: on a dict whose listed fields are numbers,
    [validate_financial_data] reports a missing [revenue] before anything
    else, and otherwise names the first negative field in the order
    revenue, cash, accounts_receivable, inventory, fixed_assets. *)
Theorem validate_reports_first (data : raw_dict) :
  numeric data →
  validate_financial_data data
  = match data !! "revenue" with
    | Some (Some _) =>
        match List.find (negative_at data) non_negative_fields with
        | Some field => Ok (false, field +:+ " cannot be negative")
        | None => Ok (true, "")
        end
    | _ => Ok (false, "Missing required field: revenue")
    end.
Proof.
  intros Hnum. unfold validate_financial_data, required_fields.
  cbn [check_required].
  destruct (data !! "revenue") as [[r|]|] eqn:Hrev; [|done..].
  rewrite check_non_negative_find.
  - by destruct (List.find _ _).
  - apply Forall_cons. split; [by rewrite Hrev|done].
Qed.

Lemma validate_reports_first_witness :
  validate_financial_data
    (<["inventory" := Some (-1)%float]> Samples.negative_cash)
  = Ok (false, "cash cannot be negative").
Proof.
  rewrite validate_reports_first; [reflexivity|].
  unfold numeric. repeat constructor; by vm_compute.
Defined.

(** X12: the only exception [validate_financial_data] raises is a
    [TypeError], and only on a dict whose revenue is a number that is not
    negative and in which one of cash, accounts_receivable, inventory,
    fixed_assets is [None]. *)
Theorem validate_raises_only_type_error (data : raw_dict) (e : exn) :
  validate_financial_data data = Raise e →
  e = TypeError
  ∧ (∃ r, data !! "revenue" = Some (Some r) ∧ lt0 r = false)
  ∧ ∃ field,
      field ∈ ["cash"; "accounts_receivable"; "inventory"; "fixed_assets"]
      ∧ data !! field = Some None.
Proof.
  unfold validate_financial_data, required_fields. cbn [check_required].
  destruct (data !! "revenue") as [[r|]|] eqn:Hrev; [|done..].
  destruct (check_non_negative data non_negative_fields) as [res|e'] eqn:Hc.
  { cbn. by destruct res. }
  cbn. intros [= <-].
  pose proof Hc as (-> & field & Hfield & Hnone)%check_non_negative_raises.
  split; [done|]. split.
  - exists r. split; [done|].
    unfold non_negative_fields in Hc. cbn [check_non_negative] in Hc.
    rewrite Hrev in Hc.
    case_eq (lt0 r); intros Hlt; [rewrite Hlt in Hc; discriminate Hc|done].
  - exists field. split; [|done].
    unfold non_negative_fields in Hfield.
    apply elem_of_cons in Hfield as [->|Hfield]; [congruence|done].
Qed.

Lemma validate_raises_only_type_error_witness :
  validate_financial_data
    (<["inventory" := None]> Samples.sound_books) = Raise TypeError
  ∧ ∃ field,
      field ∈ ["cash"; "accounts_receivable"; "inventory"; "fixed_assets"]
      ∧ (<["inventory" := None]> Samples.sound_books) !! field = Some None.
Proof.
  split; [reflexivity|].
  exact (proj2 (proj2 (validate_raises_only_type_error
                         (<["inventory" := None]> Samples.sound_books)
                         TypeError eq_refl))).
Defined.

End Messages.

(** ** The vectorized variant, row by row *)

Section RowLists.

Import Num Models Pandas Rowwise.
#[local] Open Scope float_scope.

Lemma take_rows_fmap {A B : Type} (f : A → B) (order : list nat)
    (l : list A) :
  take_rows order (f <$> l) = f <$> take_rows order l.
Proof.
  unfold take_rows. induction order as [|i order IH]; [done|].
  cbn [omap list_omap]. rewrite list_lookup_fmap, IH.
  by destruct (l !! i).
Qed.

(** A field of the record of each row gives back the column of
    [from_records]. *)
Lemma fmap_rows_fst {B : Type} (f : FinancialData → B)
    (sorted : list FinancialData) :
  (fun r : row => f r.1) <$> rows_of sorted = f <$> sorted.
Proof.
  unfold rows_of. generalize nan.
  induction sorted as [|d rest IH]; intros p; [done|].
  cbn. f_equal. apply IH.
Qed.

(** [pct_change] of the revenue column, row by row. *)
Lemma pct_change_rows (sorted : list FinancialData) :
  zip_with (fun v p => v / p - 1) (revenue <$> sorted)
    (nan :: (revenue <$> sorted))
  = (fun r : row => revenue r.1 / r.2 - 1) <$> rows_of sorted.
Proof.
  unfold rows_of. generalize nan.
  induction sorted as [|d rest IH]; intros p; [done|].
  cbn. f_equal. apply IH.
Qed.

Lemma zip_with_rows {A : Type} (op : float → float → float)
    (g1 g2 : A → float) (rows : list A) :
  zip_with op (g1 <$> rows) (g2 <$> rows)
  = (fun r => op (g1 r) (g2 r)) <$> rows.
Proof. induction rows as [|r rows IH]; [done|]. cbn. by rewrite IH. Qed.

Lemma no_inf_idemp (v : float) : no_inf (no_inf v) = no_inf v.
Proof. unfold no_inf. by destruct (is_inf v) eqn:H; [|rewrite H]. Qed.

End RowLists.

Section Frames.

Import Num Models Pandas Rowwise.
#[local] Open Scope float_scope.

Variable sorted : list FinancialData.

#[local] Abbreviation rows := (rows_of sorted).
#[local] Abbreviation rep := (frame (period <$> sorted) (rows_of sorted)).

Lemma from_records_frame : from_records sorted = rep base_columns.
Proof.
  unfold from_records, frame, base_columns. f_equal.
  rewrite !fmap_insert, fmap_empty, !fmap_rows_fst. reflexivity.
Qed.

Lemma den_col (k : string) (G : gmap string (row → float)) g :
  G !! k = Some g → col k (rep G) = Ok (g <$> rows).
Proof. intros H. unfold col, frame. cbn. by rewrite lookup_fmap, H. Qed.

Lemma den_lift2 op (a b : DataFrame → result (list float)) G
    (g1 g2 : row → float) :
  a (rep G) = Ok (g1 <$> rows) →
  b (rep G) = Ok (g2 <$> rows) →
  lift2 op a b (rep G) = Ok ((fun r => op (g1 r) (g2 r)) <$> rows).
Proof.
  intros Ha Hb. unfold lift2. rewrite Ha, Hb. cbn.
  by rewrite zip_with_rows.
Qed.

Lemma den_times (a : DataFrame → result (list float)) (k : float) G
    (g : row → float) :
  a (rep G) = Ok (g <$> rows) →
  s_times a k (rep G) = Ok ((fun r => g r * k) <$> rows).
Proof.
  intros Ha. unfold s_times. rewrite Ha. cbn.
  by rewrite <- list_fmap_compose.
Qed.

Lemma den_replace (a : DataFrame → result (list float)) G
    (g : row → float) :
  a (rep G) = Ok (g <$> rows) →
  s_replace_inf a (rep G) = Ok ((fun r => no_inf (g r)) <$> rows).
Proof.
  intros Ha. unfold s_replace_inf, replace_inf. rewrite Ha. cbn.
  by rewrite <- list_fmap_compose.
Qed.

Lemma den_pct G :
  G !! "revenue" = Some (fun r : row => revenue r.1) →
  pct_change (col "revenue") (rep G)
  = Ok ((fun r : row => revenue r.1 / r.2 - 1) <$> rows).
Proof.
  intros H. unfold pct_change. rewrite (den_col _ _ _ H). cbn.
  by rewrite fmap_rows_fst, pct_change_rows.
Qed.

Lemma assign_frame (name : string) (e : DataFrame → result (list float)) G
    (h : row → float) :
  e (rep G) = Ok (h <$> rows) →
  assign name e (rep G) = Ok (rep (<[name := h]> G)).
Proof.
  intros He. unfold assign. rewrite He. cbn.
  unfold set_col, frame. cbn. by rewrite fmap_insert.
Qed.

Lemma replace_frame G :
  {| period_col := period_col (rep G);
     columns := replace_inf <$> columns (rep G) |}
  = rep ((fun (g : row → float) r => no_inf (g r)) <$> G).
Proof.
  unfold frame. cbn. f_equal. rewrite <- !map_fmap_compose.
  apply map_fmap_ext. intros k g _. cbn. unfold replace_inf.
  by rewrite <- list_fmap_compose.
Qed.

Lemma round_frame G (name : string) :
  round_column (rep G) name
  = rep (alter (fun (g : row → float) r => np_round2 (g r)) name G).
Proof.
  unfold round_column, set_col, frame. cbn. rewrite lookup_fmap.
  destruct (G !! name) as [g|] eqn:Hg; cbn.
  - f_equal. apply map_eq. intros k.
    rewrite lookup_insert, !lookup_fmap, lookup_alter.
    repeat case_decide; try congruence.
    subst. rewrite Hg. cbn. by rewrite <- list_fmap_compose.
  - f_equal. apply map_eq. intros k.
    rewrite !lookup_fmap, lookup_alter.
    case_decide; [|done]. subst. by rewrite Hg.
Qed.

Lemma foldl_round_frame (names : list string) :
  ∀ G,
    foldl round_column (rep G) names
    = rep (foldl (fun G name =>
                    alter (fun (g : row → float) r => np_round2 (g r)) name G)
                 G names).
Proof.
  induction names as [|name names IH]; intros G; [done|].
  cbn [foldl]. by rewrite round_frame, IH.
Qed.

End Frames.

Lemma lookup_insert_skip {A : Type} (m : gmap string A) (i j : string)
    (x y : A) :
  String.eqb i j = false → m !! j = Some y → <[i := x]> m !! j = Some y.
Proof. intros Hne%String.eqb_neq H. by rewrite lookup_insert_ne. Qed.

(** Reads the latest store to a key in a chain of stores. *)
Ltac find_key :=
  repeat (apply lookup_insert_skip; [reflexivity|]); apply lookup_insert_eq.

(** Evaluates a series expression over a frame given row by row. *)
Ltac den :=
  lazymatch goal with
  | |- Pandas.col _ _ = _ => eapply den_col; find_key
  | |- Pandas.pct_change _ _ = _ => eapply den_pct; find_key
  | |- Pandas.lift2 _ _ _ _ = _ => eapply den_lift2; den
  | |- Pandas.s_add _ _ _ = _ => unfold Pandas.s_add; eapply den_lift2; den
  | |- Pandas.s_sub _ _ _ = _ => unfold Pandas.s_sub; eapply den_lift2; den
  | |- Pandas.s_div _ _ _ = _ => unfold Pandas.s_div; eapply den_lift2; den
  | |- Pandas.s_times _ _ _ = _ => eapply den_times; den
  | |- Pandas.s_replace_inf _ _ = _ => eapply den_replace; den
  end.

Ltac step := erewrite assign_frame by den; cbn [mbind result_bind].

Section Pipeline.

Import Num Models Pandas Rowwise.
#[local] Open Scope float_scope.

Lemma sort_values_from_records (records : list FinancialData) :
  sort_values (from_records records) = from_records (sort_records records).
Proof.
  unfold sort_values, from_records, sort_records.
  cbn [period_col columns]. f_equal; [apply take_rows_fmap|].
  rewrite <- list_to_map_fmap. cbn [fmap list_fmap prod_map fst snd id].
  by rewrite !take_rows_fmap.
Qed.

Lemma lookup_foldl_alter {A : Type} (f : A → A) (names : list string)
    (k : string) :
  NoDup names →
  ∀ G : gmap string A,
    foldl (fun G name => alter f name G) G names !! k
    = if decide (k ∈ names) then f <$> G !! k else G !! k.
Proof.
  induction 1 as [|name names Hnotin Hnodup IH]; intros G.
  - rewrite decide_False; [done|apply not_elem_of_nil].
  - cbn [foldl]. rewrite IH, lookup_alter.
    destruct (decide (k = name)) as [->|Hne].
    + rewrite (decide_False (P := name ∈ names)) by done.
      rewrite (decide_True (P := name = name)) by done.
      by rewrite decide_True by apply list_elem_of_here.
    + rewrite (decide_False (P := name = k)) by done.
      destruct (decide (k ∈ names)) as [Hin|Hnin].
      * by rewrite decide_True by by apply list_elem_of_further.
      * rewrite decide_False; [done|].
        intros [?|?]%elem_of_cons; done.
Qed.

Lemma dom_insert_list {A : Type} (m : gmap string A) (k : string) (v : A)
    (l : list string) :
  dom m = list_to_set l → dom (<[k := v]> m) = list_to_set (k :: l).
Proof. intros H. by rewrite dom_insert_L, H. Qed.

Lemma dom_empty_list {A : Type} :
  dom (∅ : gmap string A) = (list_to_set [] : gset string).
Proof. by rewrite dom_empty_L. Qed.

Lemma same_elements (l1 l2 : list string) :
  forallb (fun x => bool_decide (x ∈ l2)) l1
  && forallb (fun x => bool_decide (x ∈ l1)) l2 = true →
  (list_to_set l1 : gset string) = list_to_set l2.
Proof.
  intros [H1 H2]%andb_prop. apply set_eq. intros x.
  rewrite !elem_of_list_to_set.
  rewrite forallb_forall in H1, H2. split; intros Hx.
  - eapply bool_decide_eq_true_1, H1. by apply list_elem_of_In.
  - eapply bool_decide_eq_true_1, H2. by apply list_elem_of_In.
Qed.

Lemma NoDup_calculated_columns : NoDup calculated_columns.
Proof. apply (bool_decide_unpack _). by vm_compute. Qed.

(** The frame [calculate_analytics_df] returns for a list of records,
    before the final replacement and rounding are read off. *)
Lemma df_steps (sorted : list FinancialData) :
  ∃ G : gmap string (row → float),
    calculate_analytics_df (from_records sorted)
    = (let df := frame (period <$> sort_records sorted)
                   (rows_of (sort_records sorted)) G in
       Ok (foldl round_column
             {| period_col := period_col df;
                columns := replace_inf <$> columns df |}
             calculated_columns))
    ∧ dom G = list_to_set output_columns
    ∧ ∀ r, Forall (fun '(name, v) =>
                     ∃ g, G !! name = Some g ∧ no_inf (g r) = no_inf v)
                  (raw_metrics r).
Proof.
  unfold calculate_analytics_df.
  rewrite sort_values_from_records, from_records_frame.
  do 33 step.
  eexists. split; [reflexivity|]. split.
  - unfold base_columns. etrans.
    + repeat eapply dom_insert_list. apply dom_empty_list.
    + apply same_elements. by vm_compute.
  - intros r. unfold raw_metrics.
    repeat (apply Forall_cons; split;
            [cbv beta iota; eexists; split;
             [find_key|cbv beta; rewrite ?no_inf_idemp; reflexivity]|]).
    apply Forall_nil_2.
Qed.

End Pipeline.

(** ** [sort_values] *)

Section Sorting.

Import Models Pandas Rowwise.

Lemma insert_label_perm (x : string * nat) (l : list (string * nat)) :
  insert_label x l ≡ₚ x :: l.
Proof.
  induction l as [|y rest IH]; [done|]. cbn [insert_label].
  destruct (String.leb x.1 y.1); [done|].
  rewrite IH. apply Permutation_swap.
Qed.

Lemma sort_labels_perm (l : list (string * nat)) :
  foldr insert_label [] l ≡ₚ l.
Proof.
  induction l as [|x rest IH]; [done|]. cbn [foldr].
  by rewrite insert_label_perm, IH.
Qed.

Lemma insert_label_hd (x y : string * nat) (l : list (string * nat)) :
  pair_le y x → HdRel pair_le y l → HdRel pair_le y (insert_label x l).
Proof.
  intros Hyx Hhd. destruct l as [|z rest]; cbn [insert_label].
  - by constructor.
  - destruct (String.leb x.1 z.1); constructor; [done|].
    by inversion Hhd.
Qed.

Lemma insert_label_sorted (x : string * nat) (l : list (string * nat)) :
  Sorted pair_le l → Sorted pair_le (insert_label x l).
Proof.
  induction 1 as [|y rest Hsorted IH Hhd]; cbn [insert_label].
  - by repeat constructor.
  - destruct (String.leb x.1 y.1) eqn:Hle.
    + constructor; [by constructor|]. by constructor.
    + constructor; [done|]. apply insert_label_hd; [|done].
      unfold pair_le, label_le.
      destruct (String.leb_total x.1 y.1); congruence.
Qed.

Lemma sort_labels_sorted (l : list (string * nat)) :
  Sorted pair_le (foldr insert_label [] l).
Proof.
  induction l as [|x rest IH]; [constructor|].
  cbn [foldr]. by apply insert_label_sorted.
Qed.

(** Reading all the rows in their own order gives the list back. *)
Lemma take_rows_seq {A : Type} (l pre : list A) :
  omap (fun i => (pre ++ l) !! i) (seq (length pre) (length l)) = l.
Proof.
  revert pre. induction l as [|x rest IH]; intros pre; [done|].
  cbn [length seq omap list_omap].
  rewrite lookup_app_r, Nat.sub_diag by done. cbn.
  f_equal. specialize (IH (pre ++ [x])).
  rewrite length_app, Nat.add_1_r, <- app_assoc in IH. exact IH.
Qed.

Lemma argsort_perm (labels : list string) :
  argsort labels ≡ₚ seq 0 (length labels).
Proof.
  unfold argsort. rewrite sort_labels_perm.
  rewrite snd_zip; [done|]. by rewrite length_seq.
Qed.

Lemma sort_records_perm (records : list FinancialData) :
  sort_records records ≡ₚ records.
Proof.
  unfold sort_records, take_rows.
  rewrite argsort_perm, length_fmap.
  pose proof (take_rows_seq records []) as H. cbn in H. by rewrite H.
Qed.

Lemma length_sort_records (records : list FinancialData) :
  length (sort_records records) = length records.
Proof. by rewrite sort_records_perm. Qed.

(** Every pair that [argsort] sorts is a label with the number of a row
    that carries it. *)
Lemma labelled_rows (records pre : list FinancialData) :
  Forall (fun x : string * nat =>
            ∃ d, (pre ++ records) !! x.2 = Some d ∧ period d = x.1)
         (zip (period <$> records) (seq (length pre) (length records))).
Proof.
  revert pre. induction records as [|d rest IH]; intros pre; [constructor|].
  cbn. constructor.
  - exists d. cbn. by rewrite lookup_app_r, Nat.sub_diag by done.
  - specialize (IH (pre ++ [d])).
    by rewrite length_app, Nat.add_1_r, <- app_assoc in IH.
Qed.

Lemma period_take_rows (records : list FinancialData)
    (l : list (string * nat)) :
  Forall (fun x : string * nat =>
            ∃ d, records !! x.2 = Some d ∧ period d = x.1) l →
  period <$> take_rows (l.*2) records = l.*1.
Proof.
  unfold take_rows. induction 1 as [|x rest (d & Hd & Hp) _ IH]; [done|].
  cbn. rewrite Hd. cbn. by rewrite Hp, IH.
Qed.

(** X13: [sort_values] reorders the rows without losing or repeating
    one, and leaves the period labels in non-decreasing string order. *)
Theorem sort_values_sorts (records : list FinancialData) :
  sort_values (from_records records) = from_records (sort_records records)
  ∧ sort_records records ≡ₚ records
  ∧ Sorted label_le (period_col (sort_values (from_records records))).
Proof.
  split; [apply sort_values_from_records|].
  split; [apply sort_records_perm|].
  rewrite sort_values_from_records. cbn [from_records period_col].
  unfold sort_records, argsort.
  rewrite period_take_rows.
  - apply (Sorted_fmap fst pair_le label_le); [done|].
    apply sort_labels_sorted.
  - rewrite sort_labels_perm, length_fmap.
    apply (labelled_rows records []).
Qed.

End Sorting.

(** ** What [calculate_analytics_df] returns *)

Section Returned.

Import Num Models Pandas Rowwise.
#[local] Open Scope float_scope.

Lemma dom_foldl_alter {A : Type} (f : A → A) (names : list string) :
  ∀ G : gmap string A,
    dom (foldl (fun G name => alter f name G) G names) = dom G.
Proof.
  induction names as [|name names IH]; intros G; [done|].
  cbn [foldl]. by rewrite IH, dom_alter_L.
Qed.

Lemma raw_metrics_names (r : row) : (raw_metrics r).*1 = calculated_columns.
Proof. reflexivity. Qed.

(** The returned frame, row by row: every calculated column holds, in
    each row, the rounding of its unguarded formula with the infinities
    replaced. *)
Lemma df_frame (records : list FinancialData) :
  ∃ G : gmap string (row → float),
    calculate_analytics_df (from_records records)
    = Ok (frame (period <$> sort_records records)
            (rows_of (sort_records records)) G)
    ∧ dom G = list_to_set output_columns
    ∧ ∀ r, Forall (fun '(name, v) =>
                     ∃ g, G !! name = Some g ∧ g r = np_round2 (no_inf v))
                  (raw_metrics r).
Proof.
  destruct (df_steps records) as (G & Hrun & Hdom & Hrows).
  eexists. split; [|split].
  - rewrite Hrun. cbv zeta. by rewrite replace_frame, foldl_round_frame.
  - by rewrite dom_foldl_alter, dom_fmap_L.
  - intros r. apply Forall_forall. intros [name v] Hin.
    assert (name ∈ calculated_columns) as Hname.
    { rewrite <- (raw_metrics_names r). apply list_elem_of_fmap.
      exists (name, v). split; [reflexivity|exact Hin]. }
    pose proof (proj1 (Forall_forall _ _) (Hrows r) _ Hin) as (g & Hg & Heq).
    exists (fun r => np_round2 (no_inf (g r))). split.
    + rewrite lookup_foldl_alter by apply NoDup_calculated_columns.
      rewrite decide_True by done. by rewrite lookup_fmap, Hg.
    + cbn. by rewrite Heq.
Qed.

Lemma length_rows_of (sorted : list FinancialData) :
  length (rows_of sorted) = length sorted.
Proof.
  unfold rows_of. generalize nan.
  induction sorted as [|d rest IH]; intros p; [done|].
  cbn. by rewrite IH.
Qed.

(** X14: on the frame of any list of records [calculate_analytics_df]
    returns a frame: its period column is the sorted one, its columns are
    the 13 inputs, the 11 intermediate columns and the 21 metrics, and every
    column has one entry per record. *)
Theorem df_returns_frame (records : list FinancialData) :
  ∃ out,
    calculate_analytics_df (from_records records) = Ok out
    ∧ period_col out = period <$> sort_records records
    ∧ dom (columns out) = list_to_set output_columns
    ∧ ∀ name s, columns out !! name = Some s → length s = length records.
Proof.
  destruct (df_frame records) as (G & Hrun & Hdom & _).
  eexists. split; [exact Hrun|]. split; [done|]. split.
  - cbn. by rewrite dom_fmap_L.
  - intros name s. cbn. rewrite lookup_fmap.
    destruct (G !! name); [|done]. intros [= <-].
    by rewrite length_fmap, length_rows_of, length_sort_records.
Qed.

(** The calculated columns, read in the row [r] of the sorted frame. *)
Lemma df_row_cells (records : list FinancialData) (i : nat) (r : row) :
  rows_of (sort_records records) !! i = Some r →
  Forall (fun '(name, v) =>
            cell (calculate_analytics_df (from_records records)) name i
            = Some (np_round2 (no_inf v)))
         (raw_metrics r).
Proof.
  intros Hi. destruct (df_frame records) as (G & -> & _ & Hrows).
  eapply Forall_impl; [apply (Hrows r)|].
  intros [name v] (g & Hg & Heq). cbn.
  by rewrite lookup_fmap, Hg; cbn; rewrite list_lookup_fmap, Hi; cbn; rewrite Heq.
Qed.

(** Row [i] pairs the record in place [i] with the revenue in place
    [i - 1]. *)
Lemma rows_of_lookup (sorted : list FinancialData) :
  ∀ (i : nat) (p : float) (d : FinancialData),
    sorted !! i = Some d →
    zip sorted (p :: (revenue <$> sorted)) !! i
    = Some (d, match i with
               | O => p
               | S j => default nan (revenue <$> sorted !! j)
               end).
Proof.
  induction sorted as [|q rest IH]; intros i p d Hi; [done|].
  destruct i as [|i]; [by injection Hi as ->|].
  cbn in Hi. etrans; [apply (IH i (revenue q) d Hi)|]. by destruct i.
Qed.

(** X15: in row [i] of the returned frame, each of the 21 calculated
    columns holds its formula on the record in place [i] of the sorted
    records, computed without any guard, with an infinite value replaced by
    0 and the result rounded; the growth is taken against the revenue of
    the record before it in sorted order (NaN for the first), and the
    working capital days from the unrounded day counts. *)
Theorem df_row_formula (records : list FinancialData) (i : nat)
    (d : FinancialData) :
  sort_records records !! i = Some d →
  Forall (fun '(name, v) =>
            cell (calculate_analytics_df (from_records records)) name i
            = Some (np_round2 (no_inf v)))
         (raw_metrics
            (d, match i with
                | O => nan
                | S j => default nan (revenue <$> sort_records records !! j)
                end)).
Proof. intros Hi. apply df_row_cells. by apply rows_of_lookup. Qed.

Lemma df_row_formula_witness :
  sort_records Demo.get_rebeccas_data !! 2%nat = Some Demo.y2017
  ∧ Forall (fun '(name, v) =>
              cell (calculate_analytics_df
                      (from_records Demo.get_rebeccas_data)) name 2
              = Some (np_round2 (no_inf v)))
           (raw_metrics (Demo.y2017, 4200000)).
Proof.
  split; [reflexivity|].
  apply (df_row_formula Demo.get_rebeccas_data 2 Demo.y2017).
  reflexivity.
Defined.

Lemma div_nan (x : float) : x / nan = nan.
Proof.
  apply FloatAxioms.Prim2SF_inj. rewrite FloatAxioms.div_spec.
  change (Prim2SF nan) with S754_nan.
  by destruct (Prim2SF x) as [[]|[]| |[] m e].
Qed.

(** X16: whatever the records, the first row of the returned frame has
    NaN as [revenue_growth_percent]: the missing predecessor is neither
    replaced nor rounded away. *)
Theorem df_first_growth_nan (records : list FinancialData) :
  records ≠ [] →
  cell (calculate_analytics_df (from_records records))
       "revenue_growth_percent" 0
  = Some nan.
Proof.
  intros Hne.
  destruct (sort_records records) as [|d rest] eqn:Hsorted.
  { apply (f_equal length) in Hsorted.
    rewrite length_sort_records in Hsorted. by destruct records. }
  pose proof (df_row_cells records 0 (d, nan)) as Hrow.
  rewrite Hsorted in Hrow. specialize (Hrow eq_refl).
  apply Forall_cons in Hrow as [Hgrowth _].
  rewrite Hgrowth. unfold growth. cbn [fst snd].
  by rewrite div_nan.
Qed.

Lemma df_first_growth_nan_witness :
  cell (calculate_analytics_df (from_records [Samples.indebted]))
       "revenue_growth_percent" 0
  = Some nan.
Proof. by apply df_first_growth_nan. Defined.

End Returned.

(** ** Missing columns *)

Section MissingColumns.

Import Num Models Pandas Rowwise.

Lemma col_hit (k : string) (df : DataFrame) (s : list float) :
  columns df !! k = Some s → col k df = Ok s.
Proof. intros H. unfold col. by rewrite H. Qed.

Lemma col_miss (k : string) (df : DataFrame) :
  columns df !! k = None → col k df = Raise (KeyError k).
Proof. intros H. unfold col. by rewrite H. Qed.

Lemma col_set_eq (k : string) (s : list float) (df : DataFrame) :
  columns (set_col k s df) !! k = Some s.
Proof. apply lookup_insert_eq. Qed.

Lemma col_set_skip (i j : string) (s : list float) (df : DataFrame)
    (o : option (list float)) :
  String.eqb i j = false →
  columns df !! j = o → columns (set_col i s df) !! j = o.
Proof.
  intros Hne%String.eqb_neq H. unfold set_col. cbn.
  by rewrite lookup_insert_ne.
Qed.

Lemma col_sorted_Some (k : string) (df : DataFrame) (s : list float) :
  columns df !! k = Some s →
  columns (sort_values df) !! k
  = Some (take_rows (argsort (period_col df)) s).
Proof. intros H. unfold sort_values. cbn. by rewrite lookup_fmap, H. Qed.

Lemma col_sorted_None (k : string) (df : DataFrame) :
  columns df !! k = None → columns (sort_values df) !! k = None.
Proof. intros H. unfold sort_values. cbn. by rewrite lookup_fmap, H. Qed.

Lemma ev_lift2 op (a b : DataFrame → result (list float)) df x y :
  a df = Ok x → b df = Ok y → lift2 op a b df = Ok (zip_with op x y).
Proof. intros Ha Hb. unfold lift2. by rewrite Ha, Hb. Qed.

Lemma ev_times (a : DataFrame → result (list float)) k df x :
  a df = Ok x → s_times a k df = Ok ((fun v => v * k)%float <$> x).
Proof. intros Ha. unfold s_times. by rewrite Ha. Qed.

Lemma ev_replace (a : DataFrame → result (list float)) df x :
  a df = Ok x → s_replace_inf a df = Ok (replace_inf x).
Proof. intros Ha. unfold s_replace_inf. by rewrite Ha. Qed.

Lemma ev_pct (a : DataFrame → result (list float)) df x :
  a df = Ok x →
  pct_change a df = Ok (zip_with (fun v p => v / p - 1)%float x (nan :: x)).
Proof. intros Ha. unfold pct_change. by rewrite Ha. Qed.

Lemma ev_assign name (e : DataFrame → result (list float)) df s :
  e df = Ok s → assign name e df = Ok (set_col name s df).
Proof. intros He. unfold assign. by rewrite He. Qed.

Lemma raise_lift2_l op (a b : DataFrame → result (list float)) df e :
  a df = Raise e → lift2 op a b df = Raise e.
Proof. intros Ha. unfold lift2. by rewrite Ha. Qed.

Lemma raise_lift2_r op (a b : DataFrame → result (list float)) df x e :
  a df = Ok x → b df = Raise e → lift2 op a b df = Raise e.
Proof. intros Ha Hb. unfold lift2. by rewrite Ha, Hb. Qed.

Lemma raise_times (a : DataFrame → result (list float)) k df e :
  a df = Raise e → s_times a k df = Raise e.
Proof. intros Ha. unfold s_times. by rewrite Ha. Qed.

Lemma raise_pct (a : DataFrame → result (list float)) df e :
  a df = Raise e → pct_change a df = Raise e.
Proof. intros Ha. unfold pct_change. by rewrite Ha. Qed.

Lemma raise_assign name (e : DataFrame → result (list float)) df x :
  e df = Raise x → assign name e df = Raise x.
Proof. intros He. unfold assign. by rewrite He. Qed.

End MissingColumns.

(** Reads a column of a frame built by column stores over a sorted
    frame; the columns of the argument are known from hypotheses. *)
Ltac find_col :=
  repeat (apply col_set_skip; [reflexivity|]);
  first [ apply col_set_eq
        | apply col_sorted_Some; eassumption
        | apply col_sorted_None; eassumption ].

Ltac ev :=
  lazymatch goal with
  | |- Pandas.col _ _ = _ => eapply col_hit; find_col
  | |- Pandas.pct_change _ _ = _ => eapply ev_pct; ev
  | |- Pandas.lift2 _ _ _ _ = _ => eapply ev_lift2; ev
  | |- Pandas.s_add _ _ _ = _ => unfold Pandas.s_add; eapply ev_lift2; ev
  | |- Pandas.s_sub _ _ _ = _ => unfold Pandas.s_sub; eapply ev_lift2; ev
  | |- Pandas.s_div _ _ _ = _ => unfold Pandas.s_div; eapply ev_lift2; ev
  | |- Pandas.s_times _ _ _ = _ => eapply ev_times; ev
  | |- Pandas.s_replace_inf _ _ = _ => eapply ev_replace; ev
  end.

(** Finds the [KeyError] in a series expression. *)
Ltac ev_raise :=
  lazymatch goal with
  | |- Pandas.col _ _ = _ => eapply col_miss; find_col
  | |- Pandas.pct_change _ _ = _ => eapply raise_pct; ev_raise
  | |- Pandas.lift2 _ _ _ _ = _ =>
      first [ eapply raise_lift2_l; ev_raise
            | eapply raise_lift2_r; [ev|ev_raise] ]
  | |- Pandas.s_add _ _ _ = _ => unfold Pandas.s_add; ev_raise
  | |- Pandas.s_sub _ _ _ = _ => unfold Pandas.s_sub; ev_raise
  | |- Pandas.s_div _ _ _ = _ => unfold Pandas.s_div; ev_raise
  | |- Pandas.s_times _ _ _ = _ => eapply raise_times; ev_raise
  end.

Ltac store := erewrite ev_assign by ev; cbn [mbind result_bind].

(** Closes the case of a missing column [k]. *)
Ltac missing k :=
  right; exists k; split;
  [ unfold Rowwise.input_columns; set_solver
  | split; [assumption|];
    erewrite raise_assign by ev_raise; reflexivity ].

Section MissingColumn.

Import Num Models Pandas Rowwise.

(** X17: [calculate_analytics_df] returns a frame exactly on the frames
    that have its thirteen input columns; on any other frame it raises a
    [KeyError] for a missing column, where the scalar engine would read a
    missing key as 0. *)
Theorem df_requires_columns (df : DataFrame) :
  (∃ out, calculate_analytics_df df = Ok out
          ∧ ∀ k, k ∈ input_columns → is_Some (columns df !! k))
  ∨ (∃ k, k ∈ input_columns
          ∧ columns df !! k = None
          ∧ calculate_analytics_df df = Raise (KeyError k)).
Proof.
  unfold calculate_analytics_df.
  destruct (columns df !! "revenue") eqn:?; [|missing "revenue"].
  store.
  destruct (columns df !! "cost_of_goods") eqn:?; [|missing "cost_of_goods"].
  do 2 store.
  destruct (columns df !! "overheads") eqn:?; [|missing "overheads"].
  do 2 store.
  destruct (columns df !! "depreciation") eqn:?; [|missing "depreciation"].
  do 2 store.
  destruct (columns df !! "interest_paid") eqn:?; [|missing "interest_paid"].
  destruct (columns df !! "tax_paid") eqn:?; [|missing "tax_paid"].
  do 4 store.
  destruct (columns df !! "accounts_receivable") eqn:?;
    [|missing "accounts_receivable"].
  store.
  destruct (columns df !! "inventory") eqn:?; [|missing "inventory"].
  store.
  destruct (columns df !! "accounts_payable") eqn:?;
    [|missing "accounts_payable"].
  do 2 store.
  destruct (columns df !! "cash") eqn:?; [|missing "cash"].
  store.
  destruct (columns df !! "current_liabilities") eqn:?;
    [|missing "current_liabilities"].
  do 3 store.
  destruct (columns df !! "fixed_assets") eqn:?; [|missing "fixed_assets"].
  store.
  destruct (columns df !! "noncurrent_liabilities") eqn:?;
    [|missing "noncurrent_liabilities"].
  do 13 store.
  left. eexists. split; [reflexivity|].
  intros k Hk. unfold input_columns in Hk.
  repeat (apply elem_of_cons in Hk as [->|Hk]; [by eexists|]).
  by apply elem_of_nil in Hk.
Qed.

End MissingColumn.

(** ** Division by zero in the vectorized variant *)

Section ZeroDenominators.

Import Num Models Pandas Rowwise.
#[local] Open Scope float_scope.

Lemma eq0_zero (d : float) : eq0 d = true → ∃ s, Prim2SF d = S754_zero s.
Proof.
  unfold eq0. rewrite FloatAxioms.eqb_spec.
  change (Prim2SF 0) with (S754_zero false).
  destruct (Prim2SF d) as [s|[]| |[] m e]; cbn; try congruence. by exists s.
Qed.

Lemma is_inf_infinity (x : float) (s : bool) :
  Prim2SF x = S754_infinity s → is_inf x = true.
Proof.
  intros H. unfold is_inf. rewrite !FloatAxioms.eqb_spec, H.
  change (Prim2SF infinity) with (S754_infinity false).
  change (Prim2SF neg_infinity) with (S754_infinity true).
  by destruct s.
Qed.

(** A number that is neither zero nor NaN, over a zero, is an infinity;
    a zero over a zero is NaN. *)
Lemma div_zero_infinite (n d : float) :
  eq0 d = true → eq0 n = false → is_nan n = false →
  ∃ s, Prim2SF (n / d) = S754_infinity s.
Proof.
  intros [sd Hd]%eq0_zero. unfold eq0, is_nan.
  rewrite !FloatAxioms.eqb_spec, FloatAxioms.div_spec, Hd.
  change (Prim2SF 0) with (S754_zero false).
  destruct (Prim2SF n) as [sn|sn| |sn m e]; cbn; try congruence;
    intros _ _; by eexists.
Qed.

Lemma div_zero_zero (n d : float) :
  eq0 d = true → eq0 n = true → n / d = nan.
Proof.
  intros [sd Hd]%eq0_zero [sn Hn]%eq0_zero.
  apply FloatAxioms.Prim2SF_inj.
  by rewrite FloatAxioms.div_spec, Hd, Hn.
Qed.

Lemma scaled_infinite (q : float) (k : option float) (s : bool) :
  Prim2SF q = S754_infinity s → ordinary_factor k →
  is_inf (scaled q k) = true.
Proof.
  intros Hq Hk. destruct k as [k|]; cbn [scaled ordinary_factor] in *.
  - destruct (Prim2SF k) as [| | |sk mk ek] eqn:Hkk; try done.
    apply (is_inf_infinity _ (xorb s sk)).
    by rewrite FloatAxioms.mul_spec, Hq, Hkk.
  - by apply (is_inf_infinity _ s).
Qed.

Lemma scaled_nan (k : option float) : scaled nan k = nan.
Proof.
  destruct k as [k|]; [|done]. cbn [scaled].
  apply FloatAxioms.Prim2SF_inj. rewrite FloatAxioms.mul_spec.
  change (Prim2SF nan) with S754_nan. by destruct (Prim2SF k).
Qed.

(** Every ratio column is the quotient of its numerator by its
    denominator, times an ordinary factor. *)
Lemma raw_ratios_metrics (r : row) :
  Forall (fun '(name, n, d, k) =>
            (name, scaled (n / d) k) ∈ raw_metrics r ∧ ordinary_factor k)
         (raw_ratios r).
Proof.
  unfold raw_ratios, raw_metrics.
  repeat (apply Forall_cons; split;
          [split; [cbn [scaled];
                   repeat first [apply list_elem_of_here
                                |apply list_elem_of_further]
                  |by cbn]|]).
  apply Forall_nil_2.
Qed.

(** X18: in a row whose denominator for a ratio column is zero,
    [calculate_analytics_df] stores NaN when the numerator is zero too, and
    0.0 when the numerator is a number other than zero (the quotient is an
    infinity, which is replaced). *)
Theorem df_zero_denominator (records : list FinancialData) (i : nat)
    (r : row) (name : string) (n d : float) (k : option float) :
  rows_of (sort_records records) !! i = Some r →
  (name, n, d, k) ∈ raw_ratios r →
  eq0 d = true →
  (eq0 n = true →
   cell (calculate_analytics_df (from_records records)) name i = Some nan)
  ∧ (eq0 n = false → is_nan n = false →
     cell (calculate_analytics_df (from_records records)) name i = Some 0).
Proof.
  intros Hi Hin Hd.
  pose proof (proj1 (Forall_forall _ _) (raw_ratios_metrics r) _ Hin)
    as [Hmetric Hk].
  pose proof (proj1 (Forall_forall _ _) (df_row_cells records i r Hi)
                _ Hmetric) as Hcell.
  cbv beta iota in Hcell. rewrite Hcell. split.
  - intros Hn. by rewrite (div_zero_zero n d Hd Hn), scaled_nan.
  - intros Hn Hnan.
    destruct (div_zero_infinite n d Hd Hn Hnan) as [s Hs].
    unfold no_inf. by rewrite (scaled_infinite _ k s Hs Hk).
Qed.

Lemma df_zero_denominator_witness :
  let r : row := (Samples.indebted, nan) in
  (cell (calculate_analytics_df (from_records [Samples.indebted]))
        "current_ratio" 0 = Some nan)
  ∧ (cell (calculate_analytics_df (from_records [Samples.indebted]))
          "interest_coverage" 0 = Some 0).
Proof.
  split.
  - apply (df_zero_denominator [Samples.indebted] 0 (Samples.indebted, nan)
             "current_ratio" (current_assets (Samples.indebted, nan))
             (current_liabilities Samples.indebted) None);
      [reflexivity| |reflexivity|reflexivity].
    unfold raw_ratios. do 9 apply list_elem_of_further.
    apply list_elem_of_here.
  - apply (df_zero_denominator [Samples.indebted] 0 (Samples.indebted, nan)
             "interest_coverage" (operating_profit (Samples.indebted, nan))
             (interest_paid Samples.indebted) None);
      [reflexivity| |reflexivity|reflexivity|reflexivity].
    unfold raw_ratios. do 4 apply list_elem_of_further.
    apply list_elem_of_here.
Defined.

End ZeroDenominators.
